(** * CapyBot: a shallow embedding of [CapyBot.py]

    The program is a Telegram bot ([AutoReactBot]) that watches sticker
    messages, and for a sticker whose [file_unique_id] is in the configured
    list attaches an emoji reaction and then sends a canned reply.

    The embedding threads a world (the state of the messaging client and the
    trace of everything the program did: client calls and log records)
    through a small state-and-exception monad.  Python's [try]/[except] is a
    combinator over an ordered list of clauses. *)

From Stdlib Require Import ZArith List String Ascii Bool Lia DecimalString.
Import ListNotations.
Local Open Scope string_scope.
Local Open Scope Z_scope.

Set Implicit Arguments.

(** ** Python values used by the program *)

Module Py.

(** [needle in haystack] on [str]: substring containment. *)
Fixpoint str_in (needle haystack : string) : bool :=
  String.prefix needle haystack
  || match haystack with
     | EmptyString => false
     | String _ rest => str_in needle rest
     end.

(** [x in l] on a [list] of [str]: some element is equal to [x]. *)
Fixpoint list_in (x : string) (l : list string) : bool :=
  match l with
  | [] => false
  | y :: l' => String.eqb y x || list_in x l'
  end.

(** [str(n)] / [f"{n}"] on an [int]. *)
Definition str_of_int (n : Z) : string :=
  NilZero.string_of_int (Z.to_int n).

(** Instances of class [Exception].  The program tells
    [telebot.apihelper.ApiTelegramException] from every other one; each
    carries the text [str(e)] renders. *)
Inductive Exception :=
| ApiTelegramException (msg : string)
| OtherException (msg : string).

(** What a [try] statement of the program may see: an instance of
    [Exception], or the [KeyboardInterrupt] delivered when the user
    interrupts the process (a [BaseException] that is not an
    [Exception]). *)
Inductive BaseException :=
| KeyboardInterrupt
| Exc (e : Exception).

(** [str(e)], which is also what [f"{e}"] renders. *)
Definition str (e : BaseException) : string :=
  match e with
  | KeyboardInterrupt => ""
  | Exc (ApiTelegramException msg) => msg
  | Exc (OtherException msg) => msg
  end.

(** The classes named in the program's [except] clauses. *)
Inductive Class_ :=
| cls_ApiTelegramException
| cls_Exception
| cls_KeyboardInterrupt.

Definition isinstance (e : BaseException) (c : Class_) : bool :=
  match e, c with
  | Exc (ApiTelegramException _), cls_ApiTelegramException => true
  | Exc _, cls_Exception => true
  | KeyboardInterrupt, cls_KeyboardInterrupt => true
  | _, _ => false
  end.

End Py.
Import Py.

(** ** The [telebot] types the program touches *)

Module Chat.
Record t := Build { id : Z }.
End Chat.

Module Sticker.
Record t := Build { file_unique_id : string }.
End Sticker.

Module User.
Record t := Build { username : string }.
End User.

Record Message := {
  chat : Chat.t;
  message_id : Z;
  content_type : string;
  sticker : option Sticker.t
}.

Inductive ReactionType :=
| ReactionTypeEmoji (emoji : string).

(** One cycle of the long-poll receive loop: a batch of new messages, an
    exception surfacing out of the poll, or the end of the session. *)
Inductive PollCycle :=
| Updates (msgs : list Message)
| PollRaise (e : BaseException)
| PollStop.

(** The messaging client [telebot.TeleBot] as an interface over its own
    state [B].  A call returns its value or the [Exception] it raises (an
    error of the API, of the network, of the arguments), together with the
    next state of the client; the values of [set_message_reaction] and
    [send_message] are discarded by the program and not represented.
    [get_updates] is one cycle of the blocking receive loop the process is
    parked in: it is there that an interrupt by the user surfaces, so its
    outcome ranges over [BaseException]. *)
Class TeleBot (B : Type) := {
  get_me : B -> (Exception + User.t) * B;
  set_message_reaction :
    Z -> Z -> list ReactionType -> bool -> B -> (Exception + unit) * B;
  send_message : Z -> string -> option Z -> B -> (Exception + unit) * B;
  get_updates : Z -> B -> PollCycle * B
}.

(** ** Traces *)

Inductive Level := INFO | WARNING | ERROR.

Inductive Event :=
| GetMe
| SetMessageReaction (chat_id message_id : Z)
                     (reaction : list ReactionType) (is_big : bool)
| SendMessage (chat_id : Z) (text : string) (reply_to_message_id : option Z)
| Polling (timeout long_polling_timeout : Z) (skip_pending none_stop : bool)
| Log (level : Level) (msg : string).

Definition is_set_message_reaction (ev : Event) : bool :=
  match ev with SetMessageReaction _ _ _ _ => true | _ => false end.

Definition is_send_message (ev : Event) : bool :=
  match ev with SendMessage _ _ _ => true | _ => false end.

(** The outbound calls of a trace: reaction attachments and sent messages. *)
Definition is_outbound (ev : Event) : bool :=
  is_set_message_reaction ev || is_send_message ev.

Definition outbound (tr : list Event) : list Event := filter is_outbound tr.

(** ** The monad *)

Inductive Outcome (A : Type) :=
| Return (a : A)
| Raise (e : BaseException)
| OutOfFuel.
Arguments Raise {A} e.
Arguments OutOfFuel {A}.

Section Monad.
Context {B : Type}.

Record World := { client : B; trace : list Event }.

Definition M (A : Type) := World -> Outcome A * World.

Definition ret {A} (a : A) : M A := fun w => (Return a, w).

Definition bind {A C} (m : M A) (k : A -> M C) : M C :=
  fun w =>
    match m w with
    | (Return a, w') => k a w'
    | (Raise e, w') => (Raise e, w')
    | (OutOfFuel, w') => (OutOfFuel, w')
    end.

Definition raise {A} (e : BaseException) : M A := fun w => (Raise e, w).

Definition out_of_fuel {A} : M A := fun w => (OutOfFuel, w).

Definition emit (ev : Event) : M unit :=
  fun w => (Return tt, {| client := client w; trace := trace w ++ [ev] |}).

(** A call of the client: the call is recorded, the client moves to its
    next state, and the exception, if any, is raised. *)
Definition call {A} (ev : Event) (f : B -> (Exception + A) * B) : M A :=
  fun w =>
    let '(r, b) := f (client w) in
    let w' := {| client := b; trace := trace w ++ [ev] |} in
    match r with
    | inl e => (Raise (Exc e), w')
    | inr a => (Return a, w')
    end.

(** The clause of a [try] statement that handles [e]: the first one, in
    source order, whose class [e] is an instance of. *)
Fixpoint find_clause {A} (clauses : list (Class_ * (BaseException -> M A)))
         (e : BaseException) : option (BaseException -> M A) :=
  match clauses with
  | [] => None
  | (c, h) :: rest => if isinstance e c then Some h else find_clause rest e
  end.

(** [try: body  except c1 as e: h1  except c2 as e: h2 ...]; an exception
    no clause matches propagates. *)
Definition try_except {A} (body : M A)
           (clauses : list (Class_ * (BaseException -> M A))) : M A :=
  fun w =>
    match body w with
    | (Raise e, w') =>
        match find_clause clauses e with
        | Some h => h e w'
        | None => (Raise e, w')
        end
    | r => r
    end.

End Monad.
Arguments World B : clear implicits.
Arguments M B A : clear implicits.

Declare Scope py_scope.
Delimit Scope py_scope with py.
Notation "x <- m ;; k" := (bind m (fun x => k))
  (at level 100, m at next level, right associativity) : py_scope.
Notation "m ;;; k" := (bind m (fun _ => k))
  (at level 100, right associativity) : py_scope.
Local Open Scope py_scope.

(** ** The bot *)

(** The attributes of an [AutoReactBot] the program reads after
    construction.  [self.bot] is the client held by the world, [self.logger]
    writes [Log] records to the trace. *)
Record AutoReactBot := {
  target_sticker_ids : list string;
  reaction_emoji : string
}.

Section Bot.
Context {B : Type} {api : TeleBot B}.

(** [repr] of a [list] of [str], as the f-string of [__init__] renders the
    configured identifiers; a builtin of the language, taken as given. *)
Variable repr : list string -> string.

(** A handler registered with the client: the [content_types] it accepts
    and the function to run. *)
Record Handler := {
  content_types : list string;
  function : Message -> M B unit
}.

Definition logger_info (msg : string) : M B unit := emit (Log INFO msg).
Definition logger_warning (msg : string) : M B unit := emit (Log WARNING msg).
Definition logger_error (msg : string) : M B unit := emit (Log ERROR msg).

Definition bot_get_me : M B User.t := call GetMe get_me.

Definition bot_set_message_reaction (chat_id message_id : Z)
           (reaction : list ReactionType) (is_big : bool) : M B unit :=
  call (SetMessageReaction chat_id message_id reaction is_big)
       (set_message_reaction chat_id message_id reaction is_big).

Definition bot_send_message (chat_id : Z) (text : string)
           (reply_to_message_id : option Z) : M B unit :=
  call (SendMessage chat_id text reply_to_message_id)
       (send_message chat_id text reply_to_message_id).

(** The suite of the [try] statement of [_add_reaction]. *)
Definition _add_reaction_try (self : AutoReactBot) (chat_id message_id : Z)
  : M B unit :=
  let reaction := ReactionTypeEmoji (reaction_emoji self) in
  bot_set_message_reaction chat_id message_id [reaction] false ;;;
  logger_info ("✅ Reaction added successfully: " ++ reaction_emoji self) ;;;
  bot_send_message chat_id "Хейтер обнаружен! Атакую!" (Some message_id).

(** The [except] clauses of [_add_reaction], in source order. *)
Definition _add_reaction_except (self : AutoReactBot)
  : list (Class_ * (BaseException -> M B unit)) :=
  [ (cls_ApiTelegramException, fun e =>
       let error_msg := str e in
       if str_in "Forbidden" error_msg then
         logger_warning
           "Bot lacks permission to add reactions or send messages in this chat"
       else if str_in "REACTION_INVALID" error_msg then
         logger_warning
           ("Emoji " ++ reaction_emoji self ++ " not supported for reactions")
       else if str_in "message not found" error_msg then
         logger_warning "Message too old or deleted"
       else
         logger_error
           ("Failed to add reaction or send message: " ++ error_msg));
    (cls_Exception, fun e =>
       logger_error
         ("Unexpected error adding reaction or sending message: " ++ str e))
  ].

(** [AutoReactBot._add_reaction] *)
Definition _add_reaction (self : AutoReactBot) (chat_id message_id : Z)
  : M B unit :=
  try_except (_add_reaction_try self chat_id message_id)
             (_add_reaction_except self).

(** [handle_sticker], the closure [_setup_handlers] registers.  Reading
    [file_unique_id] off a message that carries no sticker raises
    [AttributeError]. *)
Definition handle_sticker (self : AutoReactBot) (message : Message)
  : M B unit :=
  match sticker message with
  | None =>
      raise (Exc (OtherException
        "'NoneType' object has no attribute 'file_unique_id'"))
  | Some sticker =>
      if list_in (Sticker.file_unique_id sticker) (target_sticker_ids self)
      then
        logger_info ("Target sticker detected in chat "
                     ++ str_of_int (Chat.id (chat message))) ;;;
        _add_reaction self (Chat.id (chat message)) (message_id message)
      else ret tt
  end.

(** [AutoReactBot._setup_handlers]: one handler, for content type
    ['sticker']. *)
Definition _setup_handlers (self : AutoReactBot) : list Handler :=
  [ {| content_types := ["sticker"]; function := handle_sticker self |} ].

(** Modelled from the spec: the dispatch of [telebot]'s [message_handler]
    decorator, library code that is not part of the program.  A message is
    given to the first registered handler whose [content_types] contain
    the message's content type, and to no handler when none does
    ("if its content type is sticker ... invoke the Reactor ...; otherwise
    discard the message with no action"). *)
Fixpoint notify_handlers (handlers : list Handler) (message : Message)
  : M B unit :=
  match handlers with
  | [] => ret tt
  | h :: rest =>
      if list_in (content_type message) (content_types h)
      then function h message
      else notify_handlers rest message
  end.

(** Modelled from the spec: the messages of one poll cycle are processed
    sequentially, in order. *)
Fixpoint process_new_messages (handlers : list Handler)
         (msgs : list Message) : M B unit :=
  match msgs with
  | [] => ret tt
  | m :: rest =>
      notify_handlers handlers m ;;; process_new_messages handlers rest
  end.

(** Modelled from the spec: the receive loop of [telebot]'s [polling]
    ("waits up to a fixed timeout per cycle, wakes with zero or more new
    messages, processes them sequentially, then re-polls").  [fuel] bounds
    the number of poll cycles observed; a session that is still running
    after that many cycles has the outcome [OutOfFuel]. *)
Fixpoint polling_loop (handlers : list Handler) (long_polling_timeout : Z)
         (fuel : nat) : M B unit :=
  match fuel with
  | O => out_of_fuel
  | S fuel' =>
      fun w =>
        let '(cycle, b) := get_updates long_polling_timeout (client w) in
        let w' := {| client := b; trace := trace w |} in
        match cycle with
        | Updates msgs =>
            (process_new_messages handlers msgs ;;;
             polling_loop handlers long_polling_timeout fuel') w'
        | PollRaise e => (Raise e, w')
        | PollStop => (Return tt, w')
        end
  end.

(** Modelled from the spec: [telebot]'s [TeleBot.polling], library code
    that is not part of the program ("establishes a polling session ...
    with a bounded wait per poll cycle, requesting that previously queued
    updates be discarded at startup").  The trace records the call the
    program makes, with its arguments, and then what the receive loop
    hands to the registered handlers; whatever else the library does
    inside [polling] on its own account is not represented. *)
Definition bot_polling (handlers : list Handler)
           (timeout long_polling_timeout : Z) (skip_pending none_stop : bool)
           (fuel : nat) : M B unit :=
  emit (Polling timeout long_polling_timeout skip_pending none_stop) ;;;
  polling_loop handlers long_polling_timeout fuel.

(** [AutoReactBot.__init__], from the point where the client exists.  The
    first statement of the constructor, [telebot.TeleBot(token,
    parse_mode=None)], is library code that builds the client from the
    token, before the [try]; the client it returns is the client of the
    world this definition starts in, and a token the library refuses
    raises there, before anything below runs.  The handlers registered by
    [_setup_handlers] are passed to [polling] by [start]. *)
Definition __init__ (target_ids : list string) (emoji : string)
  : M B AutoReactBot :=
  let self := {| target_sticker_ids := target_ids;
                 reaction_emoji := emoji |} in
  try_except
    (bot_info <- bot_get_me ;;
     logger_info ("Bot started: @" ++ User.username bot_info) ;;;
     logger_info ("Watching for sticker IDs: "
                  ++ repr (target_sticker_ids self)) ;;;
     logger_info ("Will react with: " ++ reaction_emoji self))
    [ (cls_Exception, fun e =>
         logger_error ("Failed to get bot info: " ++ str e)) ] ;;;
  ret self.

(** [AutoReactBot.start] *)
Definition start (self : AutoReactBot) (fuel : nat) : M B unit :=
  logger_info "🚀 Auto-react bot is running..." ;;;
  logger_info
    "Add me to groups and I'll automatically react to your target stickers!" ;;;
  try_except
    (bot_polling (_setup_handlers self) 20 20 true true fuel)
    [ (cls_KeyboardInterrupt, fun _ => logger_info "Bot stopped by user");
      (cls_Exception, fun e =>
         logger_error ("Bot error: " ++ str e) ;;; raise e) ].

(** The configuration of [main]. *)
Definition TARGET_STICKER_IDS : list string :=
  [ "AgADZwADuRtZCw"; "AgADLXUAAkw0aEk"; "AgADtnYAAuLomUs" ].

Definition REACTION_EMOJI : string := "👎".

(** [main] *)
Definition main (fuel : nat) : M B unit :=
  bot <- __init__ TARGET_STICKER_IDS REACTION_EMOJI ;;
  start bot fuel.

End Bot.

(** ** An in-memory client

    A client that plays a script: the outcome of the identity lookup, the
    outcomes of the successive reaction and send calls (success once the
    script is used up) and the successive poll cycles (the session stops
    once they are used up). *)
Module Fake.

Record Script := {
  me : Exception + User.t;
  reactions : list (Exception + unit);
  sends : list (Exception + unit);
  polls : list PollCycle
}.

Definition next {A} (dflt : A) (l : list A) : A * list A :=
  match l with
  | [] => (dflt, [])
  | x :: l' => (x, l')
  end.

#[global] Instance api : TeleBot Script := {
  get_me s := (me s, s);
  set_message_reaction _ _ _ _ s :=
    let '(r, l) := next (inr tt) (reactions s) in
    (r, {| me := me s; reactions := l; sends := sends s; polls := polls s |});
  send_message _ _ _ s :=
    let '(r, l) := next (inr tt) (sends s) in
    (r, {| me := me s; reactions := reactions s; sends := l; polls := polls s |});
  get_updates _ s :=
    let '(c, l) := next PollStop (polls s) in
    (c, {| me := me s; reactions := reactions s; sends := sends s; polls := l |})
}.

(** A client on which every call succeeds and no message arrives. *)
Definition quiet : Script :=
  {| me := inr (User.Build "CapyBot"); reactions := []; sends := [];
     polls := [] |}.

Definition boot (s : Script) : World Script :=
  {| client := s; trace := [] |}.

(** Python's [repr] on lists of identifiers that need no escaping. *)
Definition repr (l : list string) : string :=
  "[" ++ String.concat ", " (map (fun x => "'" ++ x ++ "'") l) ++ "]".

End Fake.

Unset Implicit Arguments.

(** ** Vocabulary of the statements *)

(** The world [w] after the events [evs], the client left as it is. *)
Definition extend {B} (w : World B) (evs : list Event) : World B :=
  {| client := client w; trace := trace w ++ evs |}.

(** [needle] occurs in [s] as a contiguous substring. *)
Definition Contains (needle s : string) : Prop :=
  exists a b, s = a ++ needle ++ b.

(** The record the [except] clauses of [_add_reaction] write for [e]. *)
Definition failure_log (self : AutoReactBot) (e : Exception) : Event :=
  match e with
  | ApiTelegramException error_msg =>
      if str_in "Forbidden" error_msg then
        Log WARNING
          "Bot lacks permission to add reactions or send messages in this chat"
      else if str_in "REACTION_INVALID" error_msg then
        Log WARNING
          ("Emoji " ++ reaction_emoji self ++ " not supported for reactions")
      else if str_in "message not found" error_msg then
        Log WARNING "Message too old or deleted"
      else
        Log ERROR ("Failed to add reaction or send message: " ++ error_msg)
  | OtherException msg =>
      Log ERROR ("Unexpected error adding reaction or sending message: " ++ msg)
  end.

(** The log classifications of the specification, with their severity. *)
Inductive Classification :=
| PermissionDenied
| UnsupportedReaction
| TargetGone
| Unclassified.

Definition severity (c : Classification) : Level :=
  match c with
  | Unclassified => ERROR
  | _ => WARNING
  end.

(** [Classified self e c text]: the failure [e] belongs to classification
    [c], whose log text is [text].  The three named causes are recognised by
    a marker in the text of a backend error, the earlier marker winning;
    everything else is unclassified. *)
Inductive Classified (self : AutoReactBot)
  : Exception -> Classification -> string -> Prop :=
| classified_permission_denied msg :
    Contains "Forbidden" msg ->
    Classified self (ApiTelegramException msg) PermissionDenied
      "Bot lacks permission to add reactions or send messages in this chat"
| classified_unsupported_reaction msg :
    ~ Contains "Forbidden" msg ->
    Contains "REACTION_INVALID" msg ->
    Classified self (ApiTelegramException msg) UnsupportedReaction
      ("Emoji " ++ reaction_emoji self ++ " not supported for reactions")
| classified_target_gone msg :
    ~ Contains "Forbidden" msg ->
    ~ Contains "REACTION_INVALID" msg ->
    Contains "message not found" msg ->
    Classified self (ApiTelegramException msg) TargetGone
      "Message too old or deleted"
| classified_backend_error msg :
    ~ Contains "Forbidden" msg ->
    ~ Contains "REACTION_INVALID" msg ->
    ~ Contains "message not found" msg ->
    Classified self (ApiTelegramException msg) Unclassified
      ("Failed to add reaction or send message: " ++ msg)
| classified_unexpected msg :
    Classified self (OtherException msg) Unclassified
      ("Unexpected error adding reaction or sending message: " ++ msg).

(** The two outbound calls of [_add_reaction] and the record written
    between them. *)
Definition reaction_call (self : AutoReactBot) (chat_id message_id : Z)
  : Event :=
  SetMessageReaction chat_id message_id
    [ReactionTypeEmoji (reaction_emoji self)] false.

Definition reply_call (chat_id message_id : Z) : Event :=
  SendMessage chat_id "Хейтер обнаружен! Атакую!" (Some message_id).

Definition reaction_added (self : AutoReactBot) : Event :=
  Log INFO ("✅ Reaction added successfully: " ++ reaction_emoji self).

(** The number of events of a trace that satisfy [p]. *)
Definition count (p : Event -> bool) (tr : list Event) : nat :=
  List.length (filter p tr).

(** The bot [main] constructs. *)
Definition configured : AutoReactBot :=
  {| target_sticker_ids := TARGET_STICKER_IDS;
     reaction_emoji := REACTION_EMOJI |}.

(** The sticker message of the scenario: chat 42, message 7. *)
Definition hater : Message :=
  {| chat := Chat.Build 42; message_id := 7; content_type := "sticker";
     sticker := Some (Sticker.Build "AgADZwADuRtZCw") |}.

(** The scenario with an unknown sticker, and a text message. *)
Definition stranger : Message :=
  {| chat := Chat.Build 42; message_id := 8; content_type := "sticker";
     sticker := Some (Sticker.Build "unknown123") |}.

Definition hello : Message :=
  {| chat := Chat.Build 42; message_id := 9; content_type := "text";
     sticker := None |}.

(** The error of a chat the bot was removed from, and a client on which
    the first reaction call is refused with it. *)
Definition kicked : Exception :=
  ApiTelegramException
    "A request to the Telegram API was unsuccessful. Error code: 403. Description: Forbidden: bot was kicked from the supergroup chat".

Definition forbidden : Fake.Script :=
  {| Fake.me := inr (User.Build "CapyBot");
     Fake.reactions := [inl kicked];
     Fake.sends := []; Fake.polls := [] |}.

(** An error whose text carries two markers, and a client on which the
    first reaction call fails with it. *)
Definition two_markers : Exception :=
  ApiTelegramException
    "Error code: 403. Description: Forbidden: message not found".

Definition ambiguous : Fake.Script :=
  {| Fake.me := inr (User.Build "CapyBot");
     Fake.reactions := [inl two_markers];
     Fake.sends := []; Fake.polls := [] |}.

(** A client on which the first send call fails outside the API. *)
Definition unplugged : Fake.Script :=
  {| Fake.me := inr (User.Build "CapyBot");
     Fake.reactions := [];
     Fake.sends := [inl (OtherException "Connection aborted.")];
     Fake.polls := [] |}.

(** The two records [start] writes before it polls. *)
Definition start_banner : list Event :=
  [ Log INFO "🚀 Auto-react bot is running...";
    Log INFO
      "Add me to groups and I'll automatically react to your target stickers!" ].

(** A client whose identity lookup is refused. *)
Definition anonymous : Fake.Script :=
  {| Fake.me :=
       inl (ApiTelegramException
              "A request to the Telegram API was unsuccessful. Error code: 401. Description: Unauthorized");
     Fake.reactions := []; Fake.sends := []; Fake.polls := [] |}.

(** A session: the sticker of the scenario arrives, the reply is refused,
    and the user interrupts the bot. *)
Definition session : Fake.Script :=
  {| Fake.me := inr (User.Build "CapyBot"); Fake.reactions := [];
     Fake.sends := [inl kicked];
     Fake.polls := [Updates [hello; hater; stranger];
                    PollRaise KeyboardInterrupt] |}.

(** Clients whose first poll cycle fails, and is interrupted. *)
Definition offline : Fake.Script :=
  {| Fake.me := inr (User.Build "CapyBot"); Fake.reactions := [];
     Fake.sends := [];
     Fake.polls := [PollRaise (Exc (OtherException "Connection reset by peer"))] |}.

Definition interrupted : Fake.Script :=
  {| Fake.me := inr (User.Build "CapyBot"); Fake.reactions := [];
     Fake.sends := [];
     Fake.polls := [PollRaise KeyboardInterrupt] |}.

(** A bot whose configuration lists one identifier twice. *)
Definition doubled : AutoReactBot :=
  {| target_sticker_ids :=
       [ "AgADZwADuRtZCw"; "AgADLXUAAkw0aEk"; "AgADZwADuRtZCw" ];
     reaction_emoji := "👎" |}.

(** A sticker whose identifier differs from a configured one in the case
    of its letters only. *)
Definition lookalike : Message :=
  {| chat := Chat.Build 42; message_id := 10; content_type := "sticker";
     sticker := Some (Sticker.Build "agadzwadurtzcw") |}.

(** ** Vocabulary of the statements about whole batches and runs *)

(** [m] triggers the bot: it is dispatched to the sticker handler and the
    identifier of its sticker is configured. *)
Definition is_target (self : AutoReactBot) (m : Message) : bool :=
  list_in (content_type m) ["sticker"]
  && match sticker m with
     | Some s => list_in (Sticker.file_unique_id s) (target_sticker_ids self)
     | None => false
     end.

(** A message as the client builds it: the content type ['sticker'] comes
    with a sticker. *)
Definition well_formed (m : Message) : Prop :=
  content_type m = "sticker" -> sticker m <> None.

(** The record [handle_sticker] writes for a target sticker. *)
Definition detected (m : Message) : Event :=
  Log INFO ("Target sticker detected in chat "
            ++ str_of_int (Chat.id (chat m))).

Definition is_get_me (ev : Event) : bool :=
  match ev with GetMe => true | _ => false end.

(** [w'] is [w] after more events, all of which satisfy [P]. *)
Definition adds {B} (P : Event -> Prop) (w w' : World B) : Prop :=
  exists evs, trace w' = (trace w ++ evs)%list /\ Forall P evs.

(** [w'] is [w] after more events, which together satisfy [Q]. *)
Definition grows_by {B} (Q : list Event -> Prop) (w w' : World B) : Prop :=
  exists evs, trace w' = (trace w ++ evs)%list /\ Q evs.

(** Event lists in which a reply only occurs as the third event of the
    group reaction call, reaction-added record, reply call, the three for
    one chat and one message. *)
Inductive run_trace (self : AutoReactBot) : list Event -> Prop :=
| run_nil : run_trace self []
| run_other ev rest :
    is_send_message ev = false ->
    run_trace self rest -> run_trace self (ev :: rest)
| run_reply chat_id message_id rest :
    run_trace self rest ->
    run_trace self (reaction_call self chat_id message_id
                    :: reaction_added self
                    :: reply_call chat_id message_id :: rest).

(** What constrains the calls of a bot that is running: a [polling] call
    has the arguments of [start], a reaction has the configured emoji and
    is not big, a message sent is the canned text, as a reply.  Records
    and identity lookups are not constrained. *)
Definition running_event (self : AutoReactBot) (ev : Event) : Prop :=
  match ev with
  | GetMe => True
  | SetMessageReaction _ _ reaction is_big =>
      reaction = [ReactionTypeEmoji (reaction_emoji self)] /\ is_big = false
  | SendMessage _ text reply_to_message_id =>
      text = "Хейтер обнаружен! Атакую!" /\ reply_to_message_id <> None
  | Polling timeout long_polling_timeout skip_pending none_stop =>
      timeout = 20 /\ long_polling_timeout = 20
      /\ skip_pending = true /\ none_stop = true
  | Log _ _ => True
  end.

(** [message.message_id] *)
Definition message_id_of (m : Message) : Z := message_id m.

(** The events a batch [msgs] can cause: records, and reactions and
    replies that point at a target sticker message of the batch. *)
Definition caused_by (self : AutoReactBot) (msgs : list Message)
           (ev : Event) : Prop :=
  match ev with
  | SetMessageReaction chat_id message_id reaction is_big =>
      reaction = [ReactionTypeEmoji (reaction_emoji self)] /\ is_big = false
      /\ exists m, In m msgs /\ is_target self m = true
                   /\ chat_id = Chat.id (chat m)
                   /\ message_id = message_id_of m
  | SendMessage chat_id text reply_to_message_id =>
      text = "Хейтер обнаружен! Атакую!"
      /\ exists m, In m msgs /\ is_target self m = true
                   /\ chat_id = Chat.id (chat m)
                   /\ reply_to_message_id = Some (message_id_of m)
  | Log _ _ => True
  | _ => False
  end.

(** The events one run of [_add_reaction] adds: the reaction and the
    record of its failure, or reaction, record and reply, with the record
    of the reply's failure if it fails. *)
Definition reaction_events (self : AutoReactBot) (chat_id message_id : Z)
           (evs : list Event) : Prop :=
  exists level msg,
    evs = [reaction_call self chat_id message_id; Log level msg]
    \/ evs = [reaction_call self chat_id message_id; reaction_added self;
              reply_call chat_id message_id]
    \/ evs = [reaction_call self chat_id message_id; reaction_added self;
              reply_call chat_id message_id; Log level msg].

(** A batch with a text message, the scenario's sticker twice and an
    unknown sticker; and a batch without any target. *)
Definition busy_batch : list Message := [hello; hater; stranger; hater].

Definition dull_batch : list Message := [hello; stranger; hello].

(** A bot with the configuration of [main] but no target, and one with the
    targets of [main] in another order, one of them twice. *)
Definition idle : AutoReactBot :=
  {| target_sticker_ids := []; reaction_emoji := REACTION_EMOJI |}.

Definition shuffled : AutoReactBot :=
  {| target_sticker_ids :=
       [ "AgADtnYAAuLomUs"; "AgADZwADuRtZCw"; "AgADLXUAAkw0aEk";
         "AgADtnYAAuLomUs" ];
     reaction_emoji := REACTION_EMOJI |}.

(** ** Strings and lists *)

Lemma prefix_spec (n h : string) :
  String.prefix n h = true <-> exists b, h = n ++ b.
Proof.
  revert h; induction n as [|c n IH]; intros h.
  - split; [intros _; now exists h | now destruct h].
  - destruct h as [|d h]; simpl.
    + split; [discriminate | intros [b Hb]; discriminate].
    + destruct (Ascii.ascii_dec c d) as [->|Hcd].
      * rewrite IH. split; intros [b Hb]; exists b; congruence.
      * split; [discriminate | intros [b Hb]; congruence].
Qed.

Lemma str_in_spec (n h : string) : str_in n h = true <-> Contains n h.
Proof.
  unfold Contains.
  induction h as [|c h IH]; cbn [str_in]; rewrite orb_true_iff, prefix_spec.
  - split.
    + intros [[b Hb]|H]; [now exists "", b | discriminate].
    + intros [[|a0 a] [b Hb]]; [left; now exists b | discriminate].
  - rewrite IH. split.
    + intros [[b Hb]|[a [b Hb]]].
      * now exists "", b.
      * exists (String c a), b. simpl. now rewrite Hb.
    + intros [[|a0 a] [b Hb]].
      * left. now exists b.
      * right. exists a, b. simpl in Hb. congruence.
Qed.

Lemma str_in_false (n h : string) : str_in n h = false <-> ~ Contains n h.
Proof.
  rewrite <- str_in_spec. destruct (str_in n h); split; congruence.
Qed.

Lemma list_in_spec (x : string) (l : list string) :
  list_in x l = true <-> In x l.
Proof.
  induction l as [|y l IH]; simpl.
  - split; [discriminate | tauto].
  - rewrite orb_true_iff, String.eqb_eq, IH. tauto.
Qed.

(** ** Runs of [_add_reaction] *)

Section Runs.
Context {B : Type} {api : TeleBot B}.
Variable self : AutoReactBot.

(** An [Exception] that leaves the suite of [_add_reaction] is handled by
    one of the clauses, which writes one record and returns. *)
Lemma add_reaction_catches chat_id message_id (w w1 : World B) e :
  _add_reaction_try self chat_id message_id w = (Raise (Exc e), w1) ->
  _add_reaction self chat_id message_id w
  = (Return tt, extend w1 [failure_log self e]).
Proof.
  intros Htry. unfold _add_reaction, try_except. rewrite Htry.
  destruct e as [msg|msg]; cbn [_add_reaction_except find_clause isinstance].
  - cbn [str failure_log].
    destruct (str_in "Forbidden" msg); [reflexivity|].
    destruct (str_in "REACTION_INVALID" msg); [reflexivity|].
    destruct (str_in "message not found" msg); reflexivity.
  - reflexivity.
Qed.

(** The suite, by the outcome of its two calls. *)
Lemma add_reaction_try_run chat_id message_id (w : World B) :
  _add_reaction_try self chat_id message_id w
  = let '(r1, b1) :=
      set_message_reaction chat_id message_id
        [ReactionTypeEmoji (reaction_emoji self)] false (client w) in
    match r1 with
    | inl e =>
        (Raise (Exc e),
         {| client := b1;
            trace := trace w ++ [reaction_call self chat_id message_id] |})
    | inr _ =>
        let '(r2, b2) :=
          send_message chat_id "Хейтер обнаружен! Атакую!"
                       (Some message_id) b1 in
        let w2 :=
          {| client := b2;
             trace := trace w ++ [reaction_call self chat_id message_id;
                                  reaction_added self;
                                  reply_call chat_id message_id] |} in
        match r2 with
        | inl e => (Raise (Exc e), w2)
        | inr _ => (Return tt, w2)
        end
    end.
Proof.
  unfold _add_reaction_try, bind, bot_set_message_reaction,
    bot_send_message, logger_info, emit, call, reaction_call, reply_call,
    reaction_added.
  destruct (set_message_reaction _ _ _ _ _) as [[e|[]] b1]; cbn.
  - reflexivity.
  - destruct (send_message _ _ _ _) as [[e|[]] b2]; cbn;
      rewrite <- !app_assoc; reflexivity.
Qed.

(** [_add_reaction], by the outcome of its two calls. *)
Lemma add_reaction_run chat_id message_id (w : World B) :
  _add_reaction self chat_id message_id w
  = let '(r1, b1) :=
      set_message_reaction chat_id message_id
        [ReactionTypeEmoji (reaction_emoji self)] false (client w) in
    match r1 with
    | inl e =>
        (Return tt,
         {| client := b1;
            trace := trace w ++ [reaction_call self chat_id message_id;
                                 failure_log self e] |})
    | inr _ =>
        let '(r2, b2) :=
          send_message chat_id "Хейтер обнаружен! Атакую!"
                       (Some message_id) b1 in
        (Return tt,
         {| client := b2;
            trace := trace w ++ [reaction_call self chat_id message_id;
                                 reaction_added self;
                                 reply_call chat_id message_id]
                             ++ match r2 with
                                | inl e => [failure_log self e]
                                | inr _ => []
                                end |})
    end.
Proof.
  pose proof (add_reaction_try_run chat_id message_id w) as Htry.
  destruct (set_message_reaction _ _ _ _ _) as [[e|[]] b1].
  - rewrite (add_reaction_catches _ _ _ _ _ Htry). unfold extend; cbn.
    rewrite <- app_assoc. reflexivity.
  - destruct (send_message _ _ _ _) as [[e|[]] b2].
    + rewrite (add_reaction_catches _ _ _ _ _ Htry). unfold extend; cbn.
      rewrite <- app_assoc. reflexivity.
    + unfold _add_reaction, try_except. rewrite Htry. reflexivity.
Qed.

End Runs.

Lemma failure_log_is_log (self : AutoReactBot) (e : Exception) :
  exists level msg, failure_log self e = Log level msg.
Proof.
  destruct e as [msg|msg]; cbn [failure_log]; [|eauto].
  destruct (str_in "Forbidden" msg); [eauto|].
  destruct (str_in "REACTION_INVALID" msg); [eauto|].
  destruct (str_in "message not found" msg); eauto.
Qed.

(** ** Dispatch *)

Section Dispatch.
Context {B : Type} {api : TeleBot B}.
Variable self : AutoReactBot.

Lemma dispatch_sticker (m : Message) :
  content_type m = "sticker" ->
  notify_handlers (_setup_handlers self) m = handle_sticker self m.
Proof.
  intros Hct. cbn [notify_handlers _setup_handlers content_types function].
  rewrite Hct. reflexivity.
Qed.

Lemma dispatch_other (m : Message) (w : World B) :
  content_type m <> "sticker" ->
  notify_handlers (_setup_handlers self) m w = (Return tt, w).
Proof.
  intros Hct. cbn [notify_handlers _setup_handlers content_types function].
  destruct (list_in (content_type m) ["sticker"]) eqn:Hin; [|reflexivity].
  apply list_in_spec in Hin. destruct Hin as [Heq|[]]. congruence.
Qed.

Lemma handle_sticker_target (m : Message) (s : Sticker.t) (w : World B) :
  sticker m = Some s ->
  In (Sticker.file_unique_id s) (target_sticker_ids self) ->
  handle_sticker self m w
  = _add_reaction self (Chat.id (chat m)) (message_id m)
      (extend w [Log INFO ("Target sticker detected in chat "
                           ++ str_of_int (Chat.id (chat m)))]).
Proof.
  intros Hs Hin. unfold handle_sticker. rewrite Hs.
  apply list_in_spec in Hin. rewrite Hin. reflexivity.
Qed.

Lemma handle_sticker_other (m : Message) (s : Sticker.t) (w : World B) :
  sticker m = Some s ->
  ~ In (Sticker.file_unique_id s) (target_sticker_ids self) ->
  handle_sticker self m w = (Return tt, w).
Proof.
  intros Hs Hin. unfold handle_sticker. rewrite Hs.
  destruct (list_in _ _) eqn:E; [|reflexivity].
  apply list_in_spec in E. contradiction.
Qed.

End Dispatch.

(** ** The handler *)

(** C1: for every inbound sticker message whose [file_unique_id] is in
    [target_sticker_ids], the handler makes exactly one
    [set_message_reaction] call and, when that call succeeds (and only
    then), exactly one [send_message] call after it; both carry the chat id
    and the message id of the triggering message. *)
Theorem target_sticker_reaction_then_reply
  {B : Type} {api : TeleBot B} (self : AutoReactBot)
  (m : Message) (s : Sticker.t) (w : World B) :
  content_type m = "sticker" ->
  sticker m = Some s ->
  In (Sticker.file_unique_id s) (target_sticker_ids self) ->
  outbound (trace (snd (notify_handlers (_setup_handlers self) m w)))
  = (outbound (trace w)
     ++ SetMessageReaction (Chat.id (chat m)) (message_id m)
          [ReactionTypeEmoji (reaction_emoji self)] false
     :: match fst (set_message_reaction (Chat.id (chat m)) (message_id m)
                     [ReactionTypeEmoji (reaction_emoji self)] false
                     (client w)) with
        | inr _ => [SendMessage (Chat.id (chat m))
                      "Хейтер обнаружен! Атакую!" (Some (message_id m))]
        | inl _ => []
        end)%list.
Proof.
  intros Hct Hs Hin.
  rewrite (dispatch_sticker self m Hct), (handle_sticker_target self m s w Hs Hin).
  rewrite add_reaction_run. cbn [extend client trace].
  destruct (set_message_reaction _ _ _ _ _) as [[e|[]] b1]; cbn [fst snd trace].
  - destruct (failure_log_is_log self e) as (lvl & txt & ->).
    unfold outbound. rewrite !filter_app. cbn. now rewrite app_nil_r.
  - destruct (send_message _ _ _ _) as [[e|[]] b2]; cbn [fst snd trace];
      unfold outbound; rewrite !filter_app; cbn.
    + destruct (failure_log_is_log self e) as (lvl & txt & ->).
      cbn. now rewrite app_nil_r.
    + now rewrite app_nil_r.
Qed.

Lemma target_sticker_reaction_then_reply_witness :
  outbound (trace (snd (notify_handlers (_setup_handlers configured) hater
                          (Fake.boot Fake.quiet))))
  = [SetMessageReaction 42 7 [ReactionTypeEmoji "👎"] false;
     SendMessage 42 "Хейтер обнаружен! Атакую!" (Some 7)].
Proof.
  apply (target_sticker_reaction_then_reply (api := Fake.api)
           configured hater (Sticker.Build "AgADZwADuRtZCw")
           (Fake.boot Fake.quiet)).
  - reflexivity.
  - reflexivity.
  - simpl. tauto.
Defined.

(** C2: an inbound message that is not a sticker, and an inbound sticker
    message whose [file_unique_id] is not in [target_sticker_ids], cause no
    outbound call and no other action: the handler run returns and leaves
    the world, client and trace, as it was. *)
Theorem no_action_without_target_sticker
  {B : Type} {api : TeleBot B} (self : AutoReactBot)
  (m : Message) (w : World B) :
  content_type m <> "sticker"
  \/ (exists s, sticker m = Some s
                /\ ~ In (Sticker.file_unique_id s) (target_sticker_ids self)) ->
  notify_handlers (_setup_handlers self) m w = (Return tt, w).
Proof.
  intros H.
  destruct (string_dec (content_type m) "sticker") as [Hct|Hct].
  - destruct H as [H|(s & Hs & Hin)]; [contradiction|].
    rewrite (dispatch_sticker self m Hct).
    exact (handle_sticker_other self m s w Hs Hin).
  - exact (dispatch_other self m w Hct).
Qed.

Lemma no_action_without_target_sticker_witness :
  notify_handlers (_setup_handlers configured) hello (Fake.boot Fake.quiet)
  = (Return tt, Fake.boot Fake.quiet)
  /\ notify_handlers (_setup_handlers configured) stranger
       (Fake.boot Fake.quiet)
     = (Return tt, Fake.boot Fake.quiet).
Proof.
  split.
  - apply (no_action_without_target_sticker (api := Fake.api)).
    left. discriminate.
  - apply (no_action_without_target_sticker (api := Fake.api)).
    right. exists (Sticker.Build "unknown123"). split; [reflexivity|].
    simpl. intros [H|[H|[H|[]]]]; discriminate.
Defined.

(** ** Failures *)

Lemma count_app (p : Event -> bool) (tr evs : list Event) :
  count p (tr ++ evs) = (count p tr + count p evs)%nat.
Proof. unfold count. now rewrite filter_app, length_app. Qed.

(** C3: when the [set_message_reaction] call raises, [send_message] is not
    called for that message: the run of [_add_reaction] is the reaction
    call followed by the log record of the failure, and nothing else. *)
Theorem reaction_failure_skips_reply
  {B : Type} {api : TeleBot B} (self : AutoReactBot)
  (chat_id message_id : Z) (w : World B) (e : Exception) :
  fst (set_message_reaction chat_id message_id
         [ReactionTypeEmoji (reaction_emoji self)] false (client w)) = inl e ->
  trace (snd (_add_reaction self chat_id message_id w))
  = (trace w
     ++ [SetMessageReaction chat_id message_id
           [ReactionTypeEmoji (reaction_emoji self)] false;
         failure_log self e])%list
  /\ count is_send_message (trace (snd (_add_reaction self chat_id message_id w)))
     = count is_send_message (trace w).
Proof.
  intros Hfail. rewrite add_reaction_run.
  destruct (set_message_reaction _ _ _ _ _) as [[e'|[]] b1];
    cbn [fst] in Hfail; [|discriminate].
  injection Hfail as ->. cbn [snd trace]. split; [reflexivity|].
  rewrite count_app.
  destruct (failure_log_is_log self e) as (lvl & txt & ->).
  cbn. lia.
Qed.

Lemma reaction_failure_skips_reply_witness :
  trace (snd (_add_reaction configured 42 7 (Fake.boot forbidden)))
  = [SetMessageReaction 42 7 [ReactionTypeEmoji "👎"] false;
     Log WARNING
       "Bot lacks permission to add reactions or send messages in this chat"]
  /\ count is_send_message
       (trace (snd (_add_reaction configured 42 7 (Fake.boot forbidden)))) = 0%nat.
Proof.
  exact (reaction_failure_skips_reply (api := Fake.api)
           configured 42 7 (Fake.boot forbidden) kicked eq_refl).
Defined.

Lemma classified_failure_log (self : AutoReactBot) (e : Exception)
      (c : Classification) (text : string) :
  Classified self e c text -> failure_log self e = Log (severity c) text.
Proof.
  intros H; destruct H; cbn [failure_log severity];
    repeat match goal with
           | H : Contains _ _ |- _ => apply str_in_spec in H; rewrite H
           | H : ~ Contains _ _ |- _ => apply str_in_false in H; rewrite H
           end; reflexivity.
Qed.

Lemma classified_exists (self : AutoReactBot) (e : Exception) :
  exists c text, Classified self e c text.
Proof.
  destruct e as [msg|msg]; [|eauto using Classified].
  destruct (str_in "Forbidden" msg) eqn:F;
    [apply str_in_spec in F; eauto using Classified | apply str_in_false in F].
  destruct (str_in "REACTION_INVALID" msg) eqn:R;
    [apply str_in_spec in R; eauto using Classified | apply str_in_false in R].
  destruct (str_in "message not found" msg) eqn:G;
    [apply str_in_spec in G | apply str_in_false in G];
    eauto using Classified.
Qed.

Lemma classified_unique (self : AutoReactBot) (e : Exception)
      (c c' : Classification) (text text' : string) :
  Classified self e c text -> Classified self e c' text' ->
  c' = c /\ text' = text.
Proof.
  intros H H'; destruct H; inversion H'; subst;
    solve [ contradiction | split; reflexivity ].
Qed.

(** C4: a failure raised inside [_add_reaction] is mapped to exactly one
    log classification and logged once: permission-denied,
    unsupported-reaction and target-gone at warning level, every other
    error at error level as unclassified; the record is the only thing
    [_add_reaction] adds after the failure. *)
Theorem failure_logged_once_by_classification
  {B : Type} {api : TeleBot B} (self : AutoReactBot)
  (chat_id message_id : Z) (w w1 : World B) (e : Exception) :
  _add_reaction_try self chat_id message_id w = (Raise (Exc e), w1) ->
  exists c text,
    Classified self e c text
    /\ (forall c' text', Classified self e c' text' -> c' = c /\ text' = text)
    /\ _add_reaction self chat_id message_id w
       = (Return tt, extend w1 [Log (severity c) text])
    /\ (severity c = ERROR <-> c = Unclassified).
Proof.
  intros Htry.
  destruct (classified_exists self e) as (c & text & Hc).
  exists c, text. split; [exact Hc|]. split.
  - intros c' text' Hc'. exact (classified_unique self e c c' text text' Hc Hc').
  - split.
    + rewrite (add_reaction_catches self chat_id message_id w w1 e Htry).
      now rewrite (classified_failure_log self e c text Hc).
    + destruct c; cbn; split; congruence.
Qed.

Lemma failure_logged_once_by_classification_witness :
  exists c text,
    Classified configured kicked c text
    /\ (forall c' text',
          Classified configured kicked c' text' -> c' = c /\ text' = text)
    /\ _add_reaction configured 42 7 (Fake.boot forbidden)
       = (Return tt,
          extend {| client := Fake.quiet;
                    trace := [SetMessageReaction 42 7
                                [ReactionTypeEmoji "👎"] false] |}
                 [Log (severity c) text])
    /\ (severity c = ERROR <-> c = Unclassified).
Proof.
  apply (failure_logged_once_by_classification (api := Fake.api)).
  reflexivity.
Defined.

(** C9: the classification is decided by substring containment on the
    error text in a fixed order: "Forbidden" before "REACTION_INVALID"
    before "message not found".  Of the markers a text contains only the
    earliest one decides the record logged. *)
Theorem classification_precedence
  {B : Type} {api : TeleBot B} (self : AutoReactBot)
  (chat_id message_id : Z) (w w1 : World B) (msg : string) :
  _add_reaction_try self chat_id message_id w
  = (Raise (Exc (ApiTelegramException msg)), w1) ->
  exists record,
    _add_reaction self chat_id message_id w = (Return tt, extend w1 [record])
    /\ (Contains "Forbidden" msg ->
        record = Log WARNING
          "Bot lacks permission to add reactions or send messages in this chat")
    /\ (~ Contains "Forbidden" msg -> Contains "REACTION_INVALID" msg ->
        record = Log WARNING
          ("Emoji " ++ reaction_emoji self ++ " not supported for reactions"))
    /\ (~ Contains "Forbidden" msg -> ~ Contains "REACTION_INVALID" msg ->
        Contains "message not found" msg ->
        record = Log WARNING "Message too old or deleted")
    /\ (~ Contains "Forbidden" msg -> ~ Contains "REACTION_INVALID" msg ->
        ~ Contains "message not found" msg ->
        record = Log ERROR ("Failed to add reaction or send message: " ++ msg)).
Proof.
  intros Htry. exists (failure_log self (ApiTelegramException msg)).
  split; [exact (add_reaction_catches self chat_id message_id w w1 _ Htry)|].
  cbn [failure_log]. repeat split; intros;
    repeat match goal with
           | H : Contains _ _ |- _ => apply str_in_spec in H; rewrite H
           | H : ~ Contains _ _ |- _ => apply str_in_false in H; rewrite H
           end; reflexivity.
Qed.

Lemma classification_precedence_witness :
  Contains "Forbidden" (str (Exc two_markers))
  /\ Contains "message not found" (str (Exc two_markers))
  /\ exists record,
       _add_reaction configured 42 7 (Fake.boot ambiguous)
       = (Return tt,
          extend {| client := Fake.quiet;
                    trace := [SetMessageReaction 42 7
                                [ReactionTypeEmoji "👎"] false] |}
                 [record])
       /\ (Contains "Forbidden" (str (Exc two_markers)) ->
           record = Log WARNING
             "Bot lacks permission to add reactions or send messages in this chat")
       /\ (~ Contains "Forbidden" (str (Exc two_markers)) ->
           Contains "REACTION_INVALID" (str (Exc two_markers)) ->
           record = Log WARNING
             ("Emoji " ++ reaction_emoji configured
                       ++ " not supported for reactions"))
       /\ (~ Contains "Forbidden" (str (Exc two_markers)) ->
           ~ Contains "REACTION_INVALID" (str (Exc two_markers)) ->
           Contains "message not found" (str (Exc two_markers)) ->
           record = Log WARNING "Message too old or deleted")
       /\ (~ Contains "Forbidden" (str (Exc two_markers)) ->
           ~ Contains "REACTION_INVALID" (str (Exc two_markers)) ->
           ~ Contains "message not found" (str (Exc two_markers)) ->
           record = Log ERROR
             ("Failed to add reaction or send message: "
                ++ str (Exc two_markers))).
Proof.
  split; [apply str_in_spec; reflexivity|].
  split; [apply str_in_spec; reflexivity|].
  apply (classification_precedence (api := Fake.api)).
  reflexivity.
Defined.

(** The error with two markers is logged as permission-denied. *)
Example two_markers_permission_denied :
  _add_reaction configured 42 7 (Fake.boot ambiguous)
  = (Return tt,
     {| client := Fake.quiet;
        trace :=
          [SetMessageReaction 42 7 [ReactionTypeEmoji "👎"] false;
           Log WARNING
             "Bot lacks permission to add reactions or send messages in this chat"]
     |}).
Proof. reflexivity. Qed.

(** A failure of the reply after a successful reaction goes through the
    same clauses. *)
Example reply_failure_logged :
  _add_reaction configured 42 7 (Fake.boot unplugged)
  = (Return tt,
     {| client := Fake.quiet;
        trace :=
          [SetMessageReaction 42 7 [ReactionTypeEmoji "👎"] false;
           Log INFO "✅ Reaction added successfully: 👎";
           SendMessage 42 "Хейтер обнаружен! Атакую!" (Some 7);
           Log ERROR
             "Unexpected error adding reaction or sending message: Connection aborted."]
     |}).
Proof. reflexivity. Qed.

(** Neither clause of [_add_reaction] is for [KeyboardInterrupt], which is
    not an instance of [Exception]. *)
Remark add_reaction_except_interrupt {B : Type} {api : TeleBot B}
       (self : AutoReactBot) :
  find_clause (_add_reaction_except (B := B) self) KeyboardInterrupt = None.
Proof. reflexivity. Qed.

(** The suite of [_add_reaction] raises instances of [Exception] only, and
    does not run out of fuel. *)
Lemma add_reaction_try_outcome {B : Type} {api : TeleBot B}
      (self : AutoReactBot) (chat_id message_id : Z) (w : World B) :
  (exists w1, _add_reaction_try self chat_id message_id w = (Return tt, w1))
  \/ (exists e w1,
        _add_reaction_try self chat_id message_id w = (Raise (Exc e), w1)).
Proof.
  rewrite add_reaction_try_run.
  destruct (set_message_reaction _ _ _ _ _) as [[e|[]] b1]; [eauto|].
  destruct (send_message _ _ _ _) as [[e|[]] b2]; eauto.
Qed.

Lemma add_reaction_returns {B : Type} {api : TeleBot B}
      (self : AutoReactBot) (chat_id message_id : Z) (w : World B) :
  fst (_add_reaction self chat_id message_id w) = Return tt.
Proof.
  rewrite add_reaction_run.
  destruct (set_message_reaction _ _ _ _ _) as [[e|[]] b1]; [reflexivity|].
  destruct (send_message _ _ _ _) as [[e|[]] b2]; reflexivity.
Qed.

Lemma handle_sticker_returns {B : Type} {api : TeleBot B}
      (self : AutoReactBot) (m : Message) (s : Sticker.t) (w : World B) :
  sticker m = Some s -> fst (handle_sticker self m w) = Return tt.
Proof.
  intros Hs.
  destruct (in_dec string_dec (Sticker.file_unique_id s)
                   (target_sticker_ids self)) as [Hin|Hin].
  - rewrite (handle_sticker_target self m s w Hs Hin).
    apply add_reaction_returns.
  - now rewrite (handle_sticker_other self m s w Hs Hin).
Qed.

(** The loop over a batch goes on after a message whose handler returns. *)
Lemma process_new_messages_cons {B : Type} {api : TeleBot B}
      (handlers : list Handler) (m : Message) (rest : list Message)
      (w : World B) :
  fst (notify_handlers handlers m w) = Return tt ->
  process_new_messages handlers (m :: rest) w
  = process_new_messages handlers rest (snd (notify_handlers handlers m w)).
Proof.
  cbn [process_new_messages]. unfold bind.
  destruct (notify_handlers handlers m w) as [[[]|e|] w']; cbn;
    intros H; [reflexivity | discriminate | discriminate].
Qed.

(** C5: [_add_reaction] returns normally whatever the reaction and the
    reply call raise: an exception that leaves the suite is caught, one
    record is logged and nothing propagates; there is no retry (one
    reaction call, at most one reply call); and the messages after the
    triggering one are processed from the world it leaves. *)
Theorem add_reaction_swallows_failures
  {B : Type} {api : TeleBot B} (self : AutoReactBot)
  (chat_id message_id : Z) (w : World B) :
  fst (_add_reaction self chat_id message_id w) = Return tt
  /\ (forall e w1,
        _add_reaction_try self chat_id message_id w = (Raise e, w1) ->
        exists level text,
          _add_reaction self chat_id message_id w
          = (Return tt, extend w1 [Log level text]))
  /\ count is_set_message_reaction
       (trace (snd (_add_reaction self chat_id message_id w)))
     = (count is_set_message_reaction (trace w) + 1)%nat
  /\ (count is_send_message
        (trace (snd (_add_reaction self chat_id message_id w)))
      <= count is_send_message (trace w) + 1)%nat
  /\ (forall (s : Sticker.t) (rest : list Message),
        let m := {| chat := Chat.Build chat_id; message_id := message_id;
                    content_type := "sticker"; sticker := Some s |} in
        process_new_messages (_setup_handlers self) (m :: rest) w
        = process_new_messages (_setup_handlers self) rest
            (snd (notify_handlers (_setup_handlers self) m w))).
Proof.
  split; [|split; [|split; [|split]]].
  - apply add_reaction_returns.
  - intros e w1 Htry.
    destruct (add_reaction_try_outcome self chat_id message_id w)
      as [(w2 & H)|(e' & w2 & H)]; rewrite H in Htry; [discriminate|].
    injection Htry as <- <-.
    destruct (failure_log_is_log self e') as (lvl & txt & Hlog).
    exists lvl, txt. rewrite <- Hlog.
    exact (add_reaction_catches self chat_id message_id w w2 e' H).
  - rewrite add_reaction_run.
    destruct (set_message_reaction _ _ _ _ _) as [[e|[]] b1]; cbn [snd trace].
    + destruct (failure_log_is_log self e) as (lvl & txt & ->).
      rewrite count_app. reflexivity.
    + destruct (send_message _ _ _ _) as [[e|[]] b2]; cbn [snd trace];
        rewrite !count_app;
        [destruct (failure_log_is_log self e) as (lvl & txt & ->)|];
        cbn; lia.
  - rewrite add_reaction_run.
    destruct (set_message_reaction _ _ _ _ _) as [[e|[]] b1]; cbn [snd trace].
    + destruct (failure_log_is_log self e) as (lvl & txt & ->).
      rewrite count_app. cbn. lia.
    + destruct (send_message _ _ _ _) as [[e|[]] b2]; cbn [snd trace];
        rewrite !count_app;
        [destruct (failure_log_is_log self e) as (lvl & txt & ->)|];
        cbn; lia.
  - intros s rest m. apply process_new_messages_cons.
    rewrite (dispatch_sticker self m eq_refl).
    exact (handle_sticker_returns self m s w eq_refl).
Qed.

(** ** Construction and the receive loop *)

Section Lifecycle.
Context {B : Type} {api : TeleBot B}.
Variable repr : list string -> string.

(** [__init__], by the outcome of the identity lookup. *)
Lemma init_run (targets : list string) (emoji : string) (w : World B) :
  __init__ repr targets emoji w
  = let '(r, b) := get_me (client w) in
    (Return {| target_sticker_ids := targets; reaction_emoji := emoji |},
     {| client := b;
        trace :=
          trace w
          ++ GetMe
          :: match r with
             | inl e => [Log ERROR ("Failed to get bot info: " ++ str (Exc e))]
             | inr bot_info =>
                 [Log INFO ("Bot started: @" ++ User.username bot_info);
                  Log INFO ("Watching for sticker IDs: " ++ repr targets);
                  Log INFO ("Will react with: " ++ emoji)]
             end |}).
Proof.
  unfold __init__, bind, try_except, bot_get_me, call, logger_info,
    logger_error, emit, ret.
  destruct (get_me (client w)) as [[e|bot_info] b]; cbn.
  - destruct e; cbn; rewrite <- !app_assoc; reflexivity.
  - rewrite <- !app_assoc. reflexivity.
Qed.

Lemma main_run (fuel : nat) (w : World B) :
  main repr fuel w
  = start configured fuel
      (snd (__init__ repr TARGET_STICKER_IDS REACTION_EMOJI w)).
Proof.
  unfold main, bind. rewrite init_run.
  destruct (get_me (client w)) as [r b]. reflexivity.
Qed.

Lemma start_run (self : AutoReactBot) (fuel : nat) (w : World B) :
  start self fuel w
  = try_except
      (bot_polling (_setup_handlers self) 20 20 true true fuel)
      [ (cls_KeyboardInterrupt, fun _ => logger_info "Bot stopped by user");
        (cls_Exception, fun e =>
           logger_error ("Bot error: " ++ str e) ;;; raise e) ]
      (extend w start_banner).
Proof.
  unfold start, bind at 1 2, logger_info at 1 2, emit, extend, start_banner.
  cbn [client trace]. rewrite <- app_assoc. reflexivity.
Qed.

(** A poll cycle that raises makes [polling] raise, whatever fuel is
    left. *)
Lemma polling_raises (handlers : list Handler) (fuel : nat) (w : World B)
      (e : BaseException) :
  fst (get_updates 20 (client w)) = PollRaise e ->
  bot_polling handlers 20 20 true true (S fuel) w
  = (Raise e,
     {| client := snd (get_updates 20 (client w));
        trace := trace w ++ [Polling 20 20 true true] |}).
Proof.
  intros H. unfold bot_polling, bind, emit. cbn [polling_loop client trace].
  destruct (get_updates 20 (client w)) as [c b]. cbn in H. subst c.
  reflexivity.
Qed.

End Lifecycle.

(** C6: with the configuration of [main], the sticker "AgADZwADuRtZCw" in
    chat 42 with message id 7 produces one [set_message_reaction] call
    (chat 42, message 7, the one-element reaction list with the thumbs-down
    emoji, [is_big] false) followed, the reaction being accepted, by one
    [send_message] call (chat 42, the canned text, reply to message 7). *)
Theorem scenario_hater_sticker
  {B : Type} {api : TeleBot B} (repr : list string -> string)
  (w0 w : World B) :
  fst (set_message_reaction 42 7 [ReactionTypeEmoji "👎"] false (client w))
  = inr tt ->
  fst (__init__ repr TARGET_STICKER_IDS REACTION_EMOJI w0) = Return configured
  /\ outbound
       (trace (snd (notify_handlers (_setup_handlers configured) hater w)))
     = (outbound (trace w)
        ++ [SetMessageReaction 42 7 [ReactionTypeEmoji "👎"] false;
            SendMessage 42 "Хейтер обнаружен! Атакую!" (Some 7)])%list.
Proof.
  intros Hok. split.
  - rewrite init_run. destruct (get_me (client w0)) as [r b]. reflexivity.
  - rewrite (dispatch_sticker configured hater eq_refl).
    rewrite (handle_sticker_target configured hater
               (Sticker.Build "AgADZwADuRtZCw") w eq_refl
               (or_introl eq_refl)).
    rewrite add_reaction_run. cbn [extend client trace hater chat message_id
                                   Chat.id configured reaction_emoji
                                   REACTION_EMOJI].
    cbn [configured reaction_emoji REACTION_EMOJI] in Hok.
    destruct (set_message_reaction 42 7 _ false (client w)) as [[e|[]] b1];
      cbn [fst] in Hok; [discriminate|].
    destruct (send_message _ _ _ _) as [[e|[]] b2]; cbn [snd trace];
      unfold outbound; rewrite !filter_app;
      [destruct (failure_log_is_log configured e) as (lvl & txt & ->)|];
      cbn; now rewrite app_nil_r.
Qed.

Lemma scenario_hater_sticker_witness :
  fst (__init__ Fake.repr TARGET_STICKER_IDS REACTION_EMOJI
         (Fake.boot Fake.quiet)) = Return configured
  /\ outbound
       (trace (snd (notify_handlers (_setup_handlers configured) hater
                      (Fake.boot Fake.quiet))))
     = [SetMessageReaction 42 7 [ReactionTypeEmoji "👎"] false;
        SendMessage 42 "Хейтер обнаружен! Атакую!" (Some 7)].
Proof.
  exact (scenario_hater_sticker (api := Fake.api) Fake.repr
           (Fake.boot Fake.quiet) (Fake.boot Fake.quiet) eq_refl).
Defined.

(** C7: when the receive loop raises an exception other than a keyboard
    interrupt, [start] logs it at error level and re-raises it, so the
    exception propagates; a keyboard interrupt is logged as a stop by the
    user and not re-raised, so [start] returns normally. *)
Theorem polling_failure_is_fatal
  {B : Type} {api : TeleBot B} (self : AutoReactBot) (fuel : nat)
  (w w1 : World B) (e : BaseException) :
  bot_polling (_setup_handlers self) 20 20 true true fuel
    (extend w start_banner) = (Raise e, w1) ->
  (e <> KeyboardInterrupt ->
   start self fuel w
   = (Raise e, extend w1 [Log ERROR ("Bot error: " ++ str e)]))
  /\ (e = KeyboardInterrupt ->
      start self fuel w
      = (Return tt, extend w1 [Log INFO "Bot stopped by user"])).
Proof.
  intros Hpoll. rewrite start_run. unfold try_except. rewrite Hpoll.
  destruct e as [|[msg|msg]]; split; intros He;
    try congruence; try discriminate; reflexivity.
Qed.

Lemma polling_failure_is_fatal_witness :
  (Exc (OtherException "Connection reset by peer") <> KeyboardInterrupt ->
   start configured 1 (Fake.boot offline)
   = (Raise (Exc (OtherException "Connection reset by peer")),
      extend {| client := Fake.quiet;
                trace := (start_banner ++ [Polling 20 20 true true])%list |}
             [Log ERROR ("Bot error: " ++ "Connection reset by peer")]))
  /\ (KeyboardInterrupt = KeyboardInterrupt ->
      start configured 1 (Fake.boot interrupted)
      = (Return tt,
         extend {| client := Fake.quiet;
                   trace := (start_banner ++ [Polling 20 20 true true])%list |}
                [Log INFO "Bot stopped by user"])).
Proof.
  split.
  - apply (polling_failure_is_fatal (api := Fake.api) configured 1
             (Fake.boot offline)).
    reflexivity.
  - apply (polling_failure_is_fatal (api := Fake.api) configured 1
             (Fake.boot interrupted)).
    reflexivity.
Defined.

(** C8: when the identity lookup [get_me] raises, the constructor logs
    the failure and completes normally with the bot configured as asked;
    nothing propagates, and [main] goes on to [start]. *)
Theorem identity_lookup_failure_is_logged
  {B : Type} {api : TeleBot B} (repr : list string -> string)
  (targets : list string) (emoji : string) (w : World B) (e : Exception) :
  fst (get_me (client w)) = inl e ->
  __init__ repr targets emoji w
  = (Return {| target_sticker_ids := targets; reaction_emoji := emoji |},
     {| client := snd (get_me (client w));
        trace := trace w
                 ++ [GetMe;
                     Log ERROR ("Failed to get bot info: " ++ str (Exc e))] |})
  /\ (forall fuel,
        main repr fuel w
        = start configured fuel
            {| client := snd (get_me (client w));
               trace := trace w
                        ++ [GetMe;
                            Log ERROR ("Failed to get bot info: "
                                       ++ str (Exc e))] |}).
Proof.
  intros Hme. split; [|intros fuel; rewrite main_run]; rewrite init_run;
    destruct (get_me (client w)) as [r b]; cbn [fst] in Hme; subst r;
    reflexivity.
Qed.

Lemma identity_lookup_failure_is_logged_witness :
  __init__ Fake.repr TARGET_STICKER_IDS REACTION_EMOJI (Fake.boot anonymous)
  = (Return configured,
     {| client := anonymous;
        trace :=
          [GetMe;
           Log ERROR
             "Failed to get bot info: A request to the Telegram API was unsuccessful. Error code: 401. Description: Unauthorized"] |})
  /\ (forall fuel,
        main Fake.repr fuel (Fake.boot anonymous)
        = start configured fuel
            {| client := anonymous;
               trace :=
                 [GetMe;
                  Log ERROR
                    "Failed to get bot info: A request to the Telegram API was unsuccessful. Error code: 401. Description: Unauthorized"] |}).
Proof.
  exact (identity_lookup_failure_is_logged (api := Fake.api) Fake.repr
           TARGET_STICKER_IDS REACTION_EMOJI (Fake.boot anonymous) _ eq_refl).
Defined.

(** C10: matching is one membership test with exact string equality on
    [file_unique_id].  A sticker message whose identifier is equal to no
    entry of [target_sticker_ids] triggers nothing; one whose identifier
    occurs in it, however many times, runs [_add_reaction] once, and one
    reaction call is made, not one per occurrence. *)
Theorem duplicate_targets_trigger_once
  {B : Type} {api : TeleBot B} (self : AutoReactBot)
  (m : Message) (s : Sticker.t) (w : World B) :
  content_type m = "sticker" ->
  sticker m = Some s ->
  (count_occ string_dec (target_sticker_ids self)
     (Sticker.file_unique_id s) = 0%nat ->
   notify_handlers (_setup_handlers self) m w = (Return tt, w))
  /\ ((1 <= count_occ string_dec (target_sticker_ids self)
               (Sticker.file_unique_id s))%nat ->
      notify_handlers (_setup_handlers self) m w
      = _add_reaction self (Chat.id (chat m)) (message_id m)
          (extend w [Log INFO ("Target sticker detected in chat "
                               ++ str_of_int (Chat.id (chat m)))])
      /\ count is_set_message_reaction
           (trace (snd (notify_handlers (_setup_handlers self) m w)))
         = (count is_set_message_reaction (trace w) + 1)%nat).
Proof.
  intros Hct Hs. rewrite (dispatch_sticker self m Hct). split.
  - intros Hocc. apply (handle_sticker_other self m s w Hs).
    apply (count_occ_not_In string_dec). exact Hocc.
  - intros Hocc.
    assert (Hin : In (Sticker.file_unique_id s) (target_sticker_ids self))
      by (apply (count_occ_In string_dec); lia).
    rewrite (handle_sticker_target self m s w Hs Hin).
    split; [reflexivity|].
    rewrite add_reaction_run. cbn [extend client trace].
    destruct (set_message_reaction _ _ _ _ _) as [[e|[]] b1];
      cbn [snd trace].
    + destruct (failure_log_is_log self e) as (lvl & txt & ->).
      rewrite !count_app. cbn. lia.
    + destruct (send_message _ _ _ _) as [[e|[]] b2]; cbn [snd trace];
        rewrite !count_app;
        [destruct (failure_log_is_log self e) as (lvl & txt & ->)|];
        cbn; lia.
Qed.

Lemma duplicate_targets_trigger_once_witness :
  count_occ string_dec (target_sticker_ids doubled) "AgADZwADuRtZCw" = 2%nat
  /\ notify_handlers (_setup_handlers doubled) hater (Fake.boot Fake.quiet)
     = _add_reaction doubled 42 7
         (extend (Fake.boot Fake.quiet)
                 [Log INFO "Target sticker detected in chat 42"])
  /\ count is_set_message_reaction
       (trace (snd (notify_handlers (_setup_handlers doubled) hater
                      (Fake.boot Fake.quiet)))) = 1%nat
  /\ count_occ string_dec (target_sticker_ids doubled) "agadzwadurtzcw"
     = 0%nat
  /\ notify_handlers (_setup_handlers doubled) lookalike
       (Fake.boot Fake.quiet)
     = (Return tt, Fake.boot Fake.quiet).
Proof.
  destruct (duplicate_targets_trigger_once (api := Fake.api) doubled hater
              (Sticker.Build "AgADZwADuRtZCw") (Fake.boot Fake.quiet)
              eq_refl eq_refl) as [_ Hlisted].
  destruct (duplicate_targets_trigger_once (api := Fake.api) doubled
              lookalike (Sticker.Build "agadzwadurtzcw")
              (Fake.boot Fake.quiet) eq_refl eq_refl) as [Hunlisted _].
  split; [reflexivity|].
  destruct Hlisted as [Hrun Hcount]; [vm_compute; lia|].
  split; [exact Hrun|]. split; [exact Hcount|].
  split; [reflexivity|]. apply Hunlisted. reflexivity.
Defined.

(** A whole run of [main]: construction, one batch of three messages of
    which one is a target sticker, and the interrupt. *)
Example main_session :
  main Fake.repr 2 (Fake.boot session)
  = (Return tt,
     {| client := Fake.quiet;
        trace :=
          [GetMe;
           Log INFO "Bot started: @CapyBot";
           Log INFO
             "Watching for sticker IDs: ['AgADZwADuRtZCw', 'AgADLXUAAkw0aEk', 'AgADtnYAAuLomUs']";
           Log INFO "Will react with: 👎";
           Log INFO "🚀 Auto-react bot is running...";
           Log INFO
             "Add me to groups and I'll automatically react to your target stickers!";
           Polling 20 20 true true;
           Log INFO "Target sticker detected in chat 42";
           SetMessageReaction 42 7 [ReactionTypeEmoji "👎"] false;
           Log INFO "✅ Reaction added successfully: 👎";
           SendMessage 42 "Хейтер обнаружен! Атакую!" (Some 7);
           Log WARNING
             "Bot lacks permission to add reactions or send messages in this chat";
           Log INFO "Bot stopped by user"] |}).
Proof. vm_compute. reflexivity. Qed.

(** ** Both calls of [_add_reaction] *)

(** X1: when the reaction is accepted and the reply raises, the reaction
    stays attached (nothing undoes it), the reply was attempted once, the
    failure is logged by the same classification as a failure of the
    reaction, and [_add_reaction] returns normally. *)
Theorem reply_failure_keeps_reaction
  {B : Type} {api : TeleBot B} (self : AutoReactBot)
  (chat_id message_id : Z) (w : World B) (e : Exception) :
  fst (set_message_reaction chat_id message_id
         [ReactionTypeEmoji (reaction_emoji self)] false (client w)) = inr tt ->
  fst (send_message chat_id "Хейтер обнаружен! Атакую!" (Some message_id)
         (snd (set_message_reaction chat_id message_id
                 [ReactionTypeEmoji (reaction_emoji self)] false (client w))))
  = inl e ->
  fst (_add_reaction self chat_id message_id w) = Return tt
  /\ trace (snd (_add_reaction self chat_id message_id w))
     = (trace w
        ++ [SetMessageReaction chat_id message_id
              [ReactionTypeEmoji (reaction_emoji self)] false;
            Log INFO ("✅ Reaction added successfully: " ++ reaction_emoji self);
            SendMessage chat_id "Хейтер обнаружен! Атакую!" (Some message_id);
            failure_log self e])%list.
Proof.
  intros Hreact Hsend. rewrite add_reaction_run.
  destruct (set_message_reaction _ _ _ _ _) as [[e1|[]] b1];
    cbn [fst snd] in *; [discriminate|].
  destruct (send_message _ _ _ _) as [[e2|[]] b2];
    cbn [fst snd] in *; [|discriminate].
  injection Hsend as ->. split; reflexivity.
Qed.

Lemma reply_failure_keeps_reaction_witness :
  fst (_add_reaction configured 42 7 (Fake.boot unplugged)) = Return tt
  /\ trace (snd (_add_reaction configured 42 7 (Fake.boot unplugged)))
     = [SetMessageReaction 42 7 [ReactionTypeEmoji "👎"] false;
        Log INFO "✅ Reaction added successfully: 👎";
        SendMessage 42 "Хейтер обнаружен! Атакую!" (Some 7);
        Log ERROR
          "Unexpected error adding reaction or sending message: Connection aborted."].
Proof.
  exact (reply_failure_keeps_reaction (api := Fake.api) configured 42 7
           (Fake.boot unplugged) (OtherException "Connection aborted.")
           eq_refl eq_refl).
Defined.

(** X2: when both calls succeed, [_add_reaction] writes one record, at
    info level, between the two calls, and no warning or error. *)
Theorem reaction_and_reply_succeed
  {B : Type} {api : TeleBot B} (self : AutoReactBot)
  (chat_id message_id : Z) (w : World B) :
  fst (set_message_reaction chat_id message_id
         [ReactionTypeEmoji (reaction_emoji self)] false (client w)) = inr tt ->
  fst (send_message chat_id "Хейтер обнаружен! Атакую!" (Some message_id)
         (snd (set_message_reaction chat_id message_id
                 [ReactionTypeEmoji (reaction_emoji self)] false (client w))))
  = inr tt ->
  _add_reaction self chat_id message_id w
  = (Return tt,
     {| client :=
          snd (send_message chat_id "Хейтер обнаружен! Атакую!"
                 (Some message_id)
                 (snd (set_message_reaction chat_id message_id
                         [ReactionTypeEmoji (reaction_emoji self)] false
                         (client w))));
        trace :=
          trace w
          ++ [SetMessageReaction chat_id message_id
                [ReactionTypeEmoji (reaction_emoji self)] false;
              Log INFO ("✅ Reaction added successfully: "
                        ++ reaction_emoji self);
              SendMessage chat_id "Хейтер обнаружен! Атакую!"
                (Some message_id)] |}).
Proof.
  intros Hreact Hsend. rewrite add_reaction_run.
  destruct (set_message_reaction _ _ _ _ _) as [[e1|[]] b1];
    cbn [fst snd] in *; [discriminate|].
  destruct (send_message _ _ _ _) as [[e2|[]] b2];
    cbn [fst snd] in *; [discriminate|].
  reflexivity.
Qed.

Lemma reaction_and_reply_succeed_witness :
  _add_reaction configured 42 7 (Fake.boot Fake.quiet)
  = (Return tt,
     {| client := Fake.quiet;
        trace :=
          [SetMessageReaction 42 7 [ReactionTypeEmoji "👎"] false;
           Log INFO "✅ Reaction added successfully: 👎";
           SendMessage 42 "Хейтер обнаружен! Атакую!" (Some 7)] |}).
Proof.
  exact (reaction_and_reply_succeed (api := Fake.api) configured 42 7
           (Fake.boot Fake.quiet) eq_refl eq_refl).
Defined.

(** ** Runs of the handler, of a batch and of the receive loop *)

Lemma add_reaction_shape {B : Type} {api : TeleBot B} (self : AutoReactBot)
      (chat_id message_id : Z) (w : World B) :
  exists evs,
    trace (snd (_add_reaction self chat_id message_id w))
    = (trace w ++ evs)%list
    /\ reaction_events self chat_id message_id evs.
Proof.
  rewrite add_reaction_run. unfold reaction_events.
  destruct (set_message_reaction _ _ _ _ _) as [[e|[]] b1]; cbn [snd trace].
  - destruct (failure_log_is_log self e) as (lvl & txt & ->). eauto 6.
  - destruct (send_message _ _ _ _) as [[e|[]] b2]; cbn [snd trace].
    + destruct (failure_log_is_log self e) as (lvl & txt & ->).
      eexists; split; [reflexivity|]. exists lvl, txt. cbn. auto.
    + eexists; split; [reflexivity|]. exists INFO, "". cbn. auto.
Qed.

Section Handler.
Context {B : Type} {api : TeleBot B}.
Variable self : AutoReactBot.

(** The handler run on any message, by cases. *)
Lemma notify_run (m : Message) (w : World B) :
  notify_handlers (_setup_handlers self) m w
  = if list_in (content_type m) ["sticker"] then
      match sticker m with
      | None =>
          (Raise (Exc (OtherException
             "'NoneType' object has no attribute 'file_unique_id'")), w)
      | Some s =>
          if list_in (Sticker.file_unique_id s) (target_sticker_ids self)
          then _add_reaction self (Chat.id (chat m)) (message_id m)
                 (extend w [detected m])
          else (Return tt, w)
      end
    else (Return tt, w).
Proof.
  cbn [notify_handlers _setup_handlers content_types function].
  destruct (list_in (content_type m) ["sticker"]); [|reflexivity].
  unfold handle_sticker. destruct (sticker m) as [s|]; [|reflexivity].
  destruct (list_in _ (target_sticker_ids self)); reflexivity.
Qed.

(** A message that is no target leaves the world as it is; a target adds
    the detection record and the events of one [_add_reaction]. *)
Lemma notify_shape (m : Message) (w : World B) :
  (is_target self m = false
   /\ snd (notify_handlers (_setup_handlers self) m w) = w)
  \/ (is_target self m = true
      /\ exists evs,
           trace (snd (notify_handlers (_setup_handlers self) m w))
           = (trace w ++ detected m :: evs)%list
           /\ reaction_events self (Chat.id (chat m)) (message_id m) evs).
Proof.
  rewrite notify_run. unfold is_target.
  destruct (list_in (content_type m) ["sticker"]); cbn [andb]; [|now left].
  destruct (sticker m) as [s|]; [|now left].
  destruct (list_in _ (target_sticker_ids self)); [right|now left].
  split; [reflexivity|].
  destruct (add_reaction_shape self (Chat.id (chat m)) (message_id m)
              (extend w [detected m])) as (evs & Htr & Hshape).
  exists evs. split; [|exact Hshape].
  rewrite Htr. cbn [extend trace]. now rewrite <- app_assoc.
Qed.

Lemma notify_returns (m : Message) (w : World B) :
  well_formed m ->
  fst (notify_handlers (_setup_handlers self) m w) = Return tt.
Proof.
  intros Hwf.
  destruct (string_dec (content_type m) "sticker") as [Hct|Hct].
  - rewrite (dispatch_sticker self m Hct).
    destruct (sticker m) as [s|] eqn:Hs; [|now elim (Hwf Hct)].
    exact (handle_sticker_returns self m s w Hs).
  - now rewrite (dispatch_other self m w Hct).
Qed.

End Handler.

(** A property of pairs of worlds that holds across every handler run
    holds across a batch, across the receive loop and across [start]. *)
Section Lifting.
Context {B : Type} {api : TeleBot B}.
Variable self : AutoReactBot.
Variable R : World B -> World B -> Prop.
Hypothesis R_refl : forall w, R w w.
Hypothesis R_trans : forall w1 w2 w3, R w1 w2 -> R w2 w3 -> R w1 w3.
Hypothesis R_handler :
  forall m w, R w (snd (notify_handlers (_setup_handlers self) m w)).
Hypothesis R_client :
  forall w b, R w {| client := b; trace := trace w |}.

Lemma process_lift (msgs : list Message) (w : World B) :
  R w (snd (process_new_messages (_setup_handlers self) msgs w)).
Proof.
  revert w; induction msgs as [|m rest IH]; intros w; [apply R_refl|].
  cbn [process_new_messages]. unfold bind.
  pose proof (R_handler m w) as Hm.
  destruct (notify_handlers (_setup_handlers self) m w) as [[[]|e|] w'];
    cbn [snd] in *; [|exact Hm|exact Hm].
  exact (R_trans _ _ _ Hm (IH w')).
Qed.

Lemma polling_loop_lift (long_polling_timeout : Z) (fuel : nat)
      (w : World B) :
  R w (snd (polling_loop (_setup_handlers self) long_polling_timeout fuel w)).
Proof.
  revert w; induction fuel as [|fuel IH]; intros w; [apply R_refl|].
  cbn [polling_loop].
  destruct (get_updates long_polling_timeout (client w)) as [[msgs|e|] b];
    [|apply R_client|apply R_client].
  unfold bind.
  pose proof (process_lift msgs {| client := b; trace := trace w |}) as Hp.
  destruct (process_new_messages _ msgs _) as [[[]|e|] w'];
    cbn [snd] in *;
    [|exact (R_trans _ _ _ (R_client w b) Hp)|exact (R_trans _ _ _ (R_client w b) Hp)].
  exact (R_trans _ _ _ (R_trans _ _ _ (R_client w b) Hp) (IH w')).
Qed.

Hypothesis R_log : forall w level msg, R w (extend w [Log level msg]).
Hypothesis R_polling : forall w, R w (extend w [Polling 20 20 true true]).

Lemma start_lift (fuel : nat) (w : World B) :
  R w (snd (start self fuel w)).
Proof.
  unfold start, bind at 1 2, logger_info at 1 2, emit.
  set (w1 := {| client := client w; trace := trace w ++ [_] |}).
  set (w2 := {| client := client w1; trace := trace w1 ++ [_] |}).
  assert (H12 : R w w2).
  { exact (R_trans _ _ _ (R_log w _ _) (R_log w1 _ _)). }
  unfold try_except, bot_polling, bind, emit.
  set (w3 := {| client := client w2; trace := trace w2 ++ [_] |}).
  assert (H13 : R w w3) by exact (R_trans _ _ _ H12 (R_polling w2)).
  pose proof (polling_loop_lift 20 fuel w3) as Hp.
  destruct (polling_loop _ 20 fuel w3) as [[[]|e|] w4]; cbn [snd] in *;
    [exact (R_trans _ _ _ H13 Hp)| |exact (R_trans _ _ _ H13 Hp)].
  destruct e as [|[msg|msg]]; cbn [find_clause isinstance];
    unfold logger_info, logger_error, bind, emit, raise; cbn [snd];
    exact (R_trans _ _ _ (R_trans _ _ _ H13 Hp) (R_log w4 _ _)).
Qed.

End Lifting.

(** ** Whole runs *)

Lemma adds_refl {B : Type} (P : Event -> Prop) (w : World B) : adds P w w.
Proof. exists []. split; [now rewrite app_nil_r | constructor]. Qed.

Lemma adds_trans {B : Type} (P : Event -> Prop) (w1 w2 w3 : World B) :
  adds P w1 w2 -> adds P w2 w3 -> adds P w1 w3.
Proof.
  intros (evs1 & H1 & F1) (evs2 & H2 & F2). exists (evs1 ++ evs2)%list.
  split; [rewrite H2, H1; now rewrite app_assoc | now apply Forall_app].
Qed.

Lemma adds_client {B : Type} (P : Event -> Prop) (w : World B) (b : B) :
  adds P w {| client := b; trace := trace w |}.
Proof. exists []. split; [cbn; now rewrite app_nil_r | constructor]. Qed.

Lemma adds_extend {B : Type} (P : Event -> Prop) (w : World B)
      (evs : list Event) :
  Forall P evs -> adds P w (extend w evs).
Proof. intros F. exists evs. split; [reflexivity | exact F]. Qed.

Lemma reaction_events_running (self : AutoReactBot) (chat_id message_id : Z)
      (evs : list Event) :
  reaction_events self chat_id message_id evs ->
  Forall (running_event self) evs.
Proof.
  intros (lvl & txt & [->|[->| ->]]);
    repeat constructor; cbn; try reflexivity; discriminate.
Qed.

Lemma reaction_events_counts (self : AutoReactBot) (chat_id message_id : Z)
      (evs : list Event) :
  reaction_events self chat_id message_id evs ->
  count is_set_message_reaction evs = 1%nat
  /\ (count is_send_message evs <= 1)%nat
  /\ count is_get_me evs = 0%nat.
Proof.
  intros (lvl & txt & [->|[->| ->]]); cbn; lia.
Qed.

Lemma start_adds_running {B : Type} {api : TeleBot B} (self : AutoReactBot)
      (fuel : nat) (w : World B) :
  adds (running_event self) w (snd (start self fuel w)).
Proof.
  apply start_lift.
  - apply adds_refl.
  - apply adds_trans.
  - intros m w0.
    destruct (notify_shape self m w0) as [[_ ->]|[_ (evs & Htr & Hsh)]];
      [apply adds_refl|].
    exists (detected m :: evs). split; [exact Htr|].
    constructor; [exact I | exact (reaction_events_running _ _ _ _ Hsh)].
  - apply adds_client.
  - intros w0 lvl msg. apply adds_extend. repeat constructor.
  - intros w0. apply adds_extend. repeat constructor.
Qed.

(** X3: every call a run of [start] adds to the trace is constrained by
    the configuration: a [polling] call has timeouts 20 and 20 with
    [skip_pending] and [none_stop] set, a reaction has the configured
    emoji and is not big, a message sent is the canned text, as a reply
    to some message; whatever the client delivers and however its calls
    end. *)
Theorem run_emits_configured_calls
  {B : Type} {api : TeleBot B} (self : AutoReactBot) (fuel : nat)
  (w : World B) :
  exists evs,
    trace (snd (start self fuel w)) = (trace w ++ evs)%list
    /\ Forall (running_event self) evs.
Proof. exact (start_adds_running self fuel w). Qed.

Lemma run_trace_app (self : AutoReactBot) (evs1 evs2 : list Event) :
  run_trace self evs1 -> run_trace self evs2 ->
  run_trace self (evs1 ++ evs2).
Proof.
  intros H1 H2; induction H1; cbn [app];
    [exact H2 | now apply run_other | now apply run_reply].
Qed.

Lemma reaction_events_run_trace (self : AutoReactBot)
      (chat_id message_id : Z) (evs : list Event) :
  reaction_events self chat_id message_id evs -> run_trace self evs.
Proof.
  intros (lvl & txt & [->|[->| ->]]).
  - apply run_other; [reflexivity|].
    apply run_other; [reflexivity | apply run_nil].
  - apply run_reply, run_nil.
  - apply run_reply, run_other; [reflexivity | apply run_nil].
Qed.

(** In a [run_trace] a reply comes right after the reaction-added record
    and the reaction call for the same chat and message. *)
Lemma run_trace_reply (self : AutoReactBot) (evs : list Event) :
  run_trace self evs ->
  forall pre chat_id text reply_to post,
    evs = (pre ++ SendMessage chat_id text reply_to :: post)%list ->
    exists pre' message_id,
      pre = (pre' ++ [reaction_call self chat_id message_id;
                      reaction_added self])%list
      /\ text = "Хейтер обнаружен! Атакую!"
      /\ reply_to = Some message_id.
Proof.
  induction 1 as [|ev rest Hev Hrest IH|c i rest Hrest IH];
    intros pre chat_id text reply_to post Heq.
  - destruct pre; discriminate.
  - destruct pre as [|x pre0]; cbn [app] in Heq.
    + injection Heq as -> _. discriminate.
    + injection Heq as <- Hrest'.
      destruct (IH _ _ _ _ _ Hrest') as (pre' & mid & -> & Ht & Hr).
      exists (ev :: pre'), mid. repeat split; assumption.
  - destruct pre as [|x [|y [|z pre0]]]; cbn [app] in Heq.
    + discriminate.
    + discriminate.
    + injection Heq; intros; subst.
      exists [], i. repeat split.
    + injection Heq as <- <- <- Hrest'.
      destruct (IH _ _ _ _ _ Hrest') as (pre' & mid & -> & Ht & Hr).
      exists (reaction_call self c i :: reaction_added self
              :: reply_call c i :: pre'), mid.
      repeat split; assumption.
Qed.

Lemma start_run_trace {B : Type} {api : TeleBot B} (self : AutoReactBot)
      (fuel : nat) (w : World B) :
  grows_by (run_trace self) w (snd (start self fuel w)).
Proof.
  apply start_lift.
  - intros w0. exists []. split; [now rewrite app_nil_r | apply run_nil].
  - intros w1 w2 w3 (evs1 & H1 & R1) (evs2 & H2 & R2).
    exists (evs1 ++ evs2)%list. split;
      [rewrite H2, H1; now rewrite app_assoc | now apply run_trace_app].
  - intros m w0.
    destruct (notify_shape self m w0) as [[_ ->]|[_ (evs & Htr & Hsh)]].
    + exists []. split; [now rewrite app_nil_r | apply run_nil].
    + exists (detected m :: evs). split; [exact Htr|].
      apply run_other; [reflexivity|].
      exact (reaction_events_run_trace _ _ _ _ Hsh).
  - intros w0 b. exists []. split; [cbn; now rewrite app_nil_r|apply run_nil].
  - intros w0 lvl msg. exists [Log lvl msg]. split; [reflexivity|].
    apply run_other; [reflexivity | apply run_nil].
  - intros w0. exists [Polling 20 20 true true]. split; [reflexivity|].
    apply run_other; [reflexivity | apply run_nil].
Qed.

(** X5: in what a run of [start] adds to the trace, up to any point of
    the run, every reply comes right after the reaction-added record,
    itself right after the reaction call for the same chat and the same
    message: the bot never replies before it has reacted, and the reply
    is the canned text, sent as a reply to the message reacted to. *)
Theorem reply_follows_its_reaction
  {B : Type} {api : TeleBot B} (self : AutoReactBot) (fuel : nat)
  (w : World B) :
  exists evs,
    trace (snd (start self fuel w)) = (trace w ++ evs)%list
    /\ forall pre chat_id text reply_to post,
         evs = (pre ++ SendMessage chat_id text reply_to :: post)%list ->
         exists pre' message_id,
           pre = (pre'
                  ++ [SetMessageReaction chat_id message_id
                        [ReactionTypeEmoji (reaction_emoji self)] false;
                      Log INFO ("✅ Reaction added successfully: "
                                ++ reaction_emoji self)])%list
           /\ text = "Хейтер обнаружен! Атакую!"
           /\ reply_to = Some message_id.
Proof.
  destruct (start_run_trace self fuel w) as (evs & Htr & Hrun).
  exists evs. split; [exact Htr|].
  exact (run_trace_reply self evs Hrun).
Qed.

(** X6: a bot configured with an empty list of targets makes no outbound
    call in a whole run of [start], whatever messages arrive. *)
Theorem no_target_no_call
  {B : Type} {api : TeleBot B} (self : AutoReactBot) (fuel : nat)
  (w : World B) :
  target_sticker_ids self = [] ->
  outbound (trace (snd (start self fuel w))) = outbound (trace w).
Proof.
  intros Hnil.
  apply (start_lift self
           (fun w1 w2 => outbound (trace w2) = outbound (trace w1))).
  - reflexivity.
  - intros w1 w2 w3 H12 H23. now rewrite H23.
  - intros m w0.
    destruct (notify_shape self m w0) as [[_ ->]|[Ht _]]; [reflexivity|].
    unfold is_target in Ht. rewrite Hnil in Ht.
    destruct (list_in (content_type m) ["sticker"]), (sticker m);
      discriminate.
  - reflexivity.
  - intros; unfold outbound; cbn [extend trace]; rewrite filter_app; cbn;
      now rewrite app_nil_r.
  - intros; unfold outbound; cbn [extend trace]; rewrite filter_app; cbn;
      now rewrite app_nil_r.
Qed.

Lemma no_target_no_call_witness :
  outbound (trace (snd (start idle 2 (Fake.boot session)))) = [].
Proof.
  exact (no_target_no_call (api := Fake.api) idle 2 (Fake.boot session)
           eq_refl).
Defined.

(** ** Batches *)

(** X7: on a batch of well-formed messages the loop returns normally and
    attaches exactly one reaction per target sticker message of the batch,
    whether the calls of the client succeed or fail. *)
Theorem batch_reacts_once_per_target
  {B : Type} {api : TeleBot B} (self : AutoReactBot) (msgs : list Message)
  (w : World B) :
  Forall well_formed msgs ->
  fst (process_new_messages (_setup_handlers self) msgs w) = Return tt
  /\ count is_set_message_reaction
       (trace (snd (process_new_messages (_setup_handlers self) msgs w)))
     = (count is_set_message_reaction (trace w)
        + List.length (filter (is_target self) msgs))%nat.
Proof.
  intros Hwf. revert w.
  induction Hwf as [|m rest Hm _ IH]; intros w; [cbn; split; [reflexivity|lia]|].
  rewrite (process_new_messages_cons _ m rest w (notify_returns self m w Hm)).
  destruct (IH (snd (notify_handlers (_setup_handlers self) m w)))
    as [-> ->].
  split; [reflexivity|]. cbn [filter].
  destruct (notify_shape self m w) as [[-> ->]|[-> (evs & -> & Hsh)]];
    [lia|].
  destruct (reaction_events_counts _ _ _ _ Hsh) as (Hr & _ & _).
  change (detected m :: evs) with ([detected m] ++ evs)%list.
  rewrite !count_app.
  change (count is_set_message_reaction [detected m]) with 0%nat.
  cbn [List.length]. lia.
Qed.

Lemma batch_reacts_once_per_target_witness :
  fst (process_new_messages (_setup_handlers configured) busy_batch
         (Fake.boot forbidden)) = Return tt
  /\ count is_set_message_reaction
       (trace (snd (process_new_messages (_setup_handlers configured)
                      busy_batch (Fake.boot forbidden)))) = 2%nat.
Proof.
  apply (batch_reacts_once_per_target (api := Fake.api) configured
           busy_batch (Fake.boot forbidden)).
  repeat constructor; unfold well_formed; cbn; congruence.
Defined.

(** X8: a batch of well-formed messages none of which is a target sticker
    is consumed without any effect: no call, no record, the client
    untouched. *)
Theorem batch_without_target_is_ignored
  {B : Type} {api : TeleBot B} (self : AutoReactBot) (msgs : list Message)
  (w : World B) :
  Forall well_formed msgs ->
  Forall (fun m => is_target self m = false) msgs ->
  process_new_messages (_setup_handlers self) msgs w = (Return tt, w).
Proof.
  intros Hwf. induction Hwf as [|m rest Hm _ IH]; intros Hno; [reflexivity|].
  inversion Hno as [|m' rest' Hmt Hrest]; subst.
  rewrite (process_new_messages_cons _ m rest w (notify_returns self m w Hm)).
  destruct (notify_shape self m w) as [[_ ->]|[Ht _]]; [exact (IH Hrest)|].
  congruence.
Qed.

Lemma batch_without_target_is_ignored_witness :
  process_new_messages (_setup_handlers configured) dull_batch
    (Fake.boot forbidden)
  = (Return tt, Fake.boot forbidden).
Proof.
  apply (batch_without_target_is_ignored (api := Fake.api)).
  - repeat constructor; unfold well_formed; cbn; congruence.
  - repeat constructor.
Defined.

Lemma caused_by_incl (self : AutoReactBot) (l1 l2 : list Message)
      (ev : Event) :
  incl l1 l2 -> caused_by self l1 ev -> caused_by self l2 ev.
Proof.
  intros Hincl. destruct ev; cbn; try tauto.
  - intros (Hr & Hb & m & Hin & H). repeat split; try assumption.
    exists m. split; [apply Hincl, Hin | exact H].
  - intros (Ht & m & Hin & H). split; [assumption|].
    exists m. split; [apply Hincl, Hin | exact H].
Qed.

(** X9: every reaction and every reply of a batch points at a target
    sticker message of that batch: its chat, its message id, the
    configured emoji (not big), the canned text.  The bot never reacts or
    replies to anything else. *)
Theorem batch_calls_point_at_targets
  {B : Type} {api : TeleBot B} (self : AutoReactBot) (msgs : list Message)
  (w : World B) :
  exists evs,
    trace (snd (process_new_messages (_setup_handlers self) msgs w))
    = (trace w ++ evs)%list
    /\ Forall (caused_by self msgs) evs.
Proof.
  change (adds (caused_by self msgs) w
            (snd (process_new_messages (_setup_handlers self) msgs w))).
  revert w; induction msgs as [|m rest IH]; intros w; [apply adds_refl|].
  assert (Hm : adds (caused_by self (m :: rest)) w
                 (snd (notify_handlers (_setup_handlers self) m w))).
  { destruct (notify_shape self m w) as [[_ ->]|[Ht (evs & Htr & Hsh)]];
      [apply adds_refl|].
    exists (detected m :: evs). split; [exact Htr|].
    assert (Hex : exists m0, In m0 (m :: rest) /\ is_target self m0 = true
                   /\ Chat.id (chat m) = Chat.id (chat m0)
                   /\ message_id m = message_id_of m0)
      by (exists m; repeat split; [now left | exact Ht]).
    assert (Hex' : exists m0, In m0 (m :: rest) /\ is_target self m0 = true
                   /\ Chat.id (chat m) = Chat.id (chat m0)
                   /\ Some (message_id m) = Some (message_id_of m0))
      by (exists m; repeat split; [now left | exact Ht]).
    constructor; [exact I|].
    destruct Hsh as (lvl & txt & [->|[->| ->]]);
      repeat constructor; cbn; auto. }
  cbn [process_new_messages]. unfold bind.
  destruct (notify_handlers (_setup_handlers self) m w) as [[[]|e|] w'];
    cbn [snd] in *; [|exact Hm|exact Hm].
  apply (adds_trans _ w w' _ Hm).
  destruct (IH w') as (evs & Htr & F). exists evs. split; [exact Htr|].
  revert F. apply Forall_impl. intros ev.
  apply caused_by_incl. now apply incl_tl, incl_refl.
Qed.

(** ** The configuration *)

Lemma list_in_ext (x : string) (l1 l2 : list string) :
  (In x l1 <-> In x l2) -> list_in x l1 = list_in x l2.
Proof.
  intros H. destruct (list_in x l1) eqn:E1, (list_in x l2) eqn:E2;
    try reflexivity.
  - apply list_in_spec, H, list_in_spec in E1. congruence.
  - apply list_in_spec, H, list_in_spec in E2. congruence.
Qed.

Section SameTargets.
Context {B : Type} {api : TeleBot B}.
Variables self1 self2 : AutoReactBot.
Hypothesis same_emoji : reaction_emoji self1 = reaction_emoji self2.
Hypothesis same_targets :
  forall x, In x (target_sticker_ids self1) <-> In x (target_sticker_ids self2).

Lemma add_reaction_same (chat_id message_id : Z) (w : World B) :
  _add_reaction self1 chat_id message_id w
  = _add_reaction self2 chat_id message_id w.
Proof.
  destruct self1 as [ids1 emoji1], self2 as [ids2 emoji2].
  cbn in same_emoji. subst emoji2. reflexivity.
Qed.

Lemma notify_same (m : Message) (w : World B) :
  notify_handlers (_setup_handlers self1) m w
  = notify_handlers (_setup_handlers self2) m w.
Proof.
  rewrite !notify_run.
  destruct (list_in (content_type m) ["sticker"]); [|reflexivity].
  destruct (sticker m) as [s|]; [|reflexivity].
  rewrite (list_in_ext _ _ _ (same_targets (Sticker.file_unique_id s))).
  destruct (list_in _ (target_sticker_ids self2)); [|reflexivity].
  apply add_reaction_same.
Qed.

Lemma process_same (msgs : list Message) (w : World B) :
  process_new_messages (_setup_handlers self1) msgs w
  = process_new_messages (_setup_handlers self2) msgs w.
Proof.
  revert w; induction msgs as [|m rest IH]; intros w; [reflexivity|].
  cbn [process_new_messages]. unfold bind. rewrite notify_same.
  destruct (notify_handlers (_setup_handlers self2) m w) as [[[]|e|] w'];
    [apply IH | reflexivity | reflexivity].
Qed.

Lemma polling_loop_same (long_polling_timeout : Z) (fuel : nat)
      (w : World B) :
  polling_loop (_setup_handlers self1) long_polling_timeout fuel w
  = polling_loop (_setup_handlers self2) long_polling_timeout fuel w.
Proof.
  revert w; induction fuel as [|fuel IH]; intros w; [reflexivity|].
  cbn [polling_loop].
  destruct (get_updates long_polling_timeout (client w)) as [[msgs|e|] b];
    [|reflexivity|reflexivity].
  unfold bind. rewrite process_same.
  destruct (process_new_messages (_setup_handlers self2) msgs _)
    as [[[]|e|] w']; [apply IH | reflexivity | reflexivity].
Qed.

Lemma start_same (fuel : nat) (w : World B) :
  start self1 fuel w = start self2 fuel w.
Proof.
  rewrite !start_run. unfold try_except, bot_polling, bind, emit.
  rewrite polling_loop_same. reflexivity.
Qed.

End SameTargets.

(** X10: the list of targets matters as a set: two bots with the same
    emoji whose lists have the same members, in whatever order and with
    whatever repetitions, behave alike on every run of [start]. *)
Theorem targets_matter_as_a_set
  {B : Type} {api : TeleBot B} (self1 self2 : AutoReactBot) (fuel : nat)
  (w : World B) :
  reaction_emoji self1 = reaction_emoji self2 ->
  (forall x, In x (target_sticker_ids self1)
             <-> In x (target_sticker_ids self2)) ->
  start self1 fuel w = start self2 fuel w.
Proof.
  intros Hemoji Hids. exact (start_same self1 self2 Hemoji Hids fuel w).
Qed.

Lemma targets_matter_as_a_set_witness :
  start configured 2 (Fake.boot session)
  = start shuffled 2 (Fake.boot session).
Proof.
  apply (targets_matter_as_a_set (api := Fake.api) configured shuffled).
  - reflexivity.
  - intros x. cbn. tauto.
Defined.

(** ** Construction and start *)

(** X11: once the client is built, the constructor completes with the
    bot configured as asked, whatever the identity lookup does; it calls
    the client once, for [get_me], and everything else it adds to the
    trace is a record. *)
Theorem constructor_completes_once_client_built
  {B : Type} {api : TeleBot B} (repr : list string -> string)
  (targets : list string) (emoji : string) (w : World B) :
  fst (__init__ repr targets emoji w)
  = Return {| target_sticker_ids := targets; reaction_emoji := emoji |}
  /\ client (snd (__init__ repr targets emoji w)) = snd (get_me (client w))
  /\ exists records,
       trace (snd (__init__ repr targets emoji w))
       = (trace w ++ GetMe :: records)%list
       /\ Forall (fun ev => exists level msg, ev = Log level msg) records.
Proof.
  rewrite init_run.
  destruct (get_me (client w)) as [[e|u] b]; cbn [fst snd client trace];
    (split; [reflexivity|]; split; [reflexivity|]);
    eexists; (split; [reflexivity|]); repeat constructor; eauto.
Qed.

(** X12: when the identity lookup succeeds the constructor writes three
    records at info level: the username of the bot, the configured
    identifiers and the configured emoji. *)
Theorem constructor_logs_configuration
  {B : Type} {api : TeleBot B} (repr : list string -> string)
  (targets : list string) (emoji : string) (w : World B) (bot_info : User.t) :
  fst (get_me (client w)) = inr bot_info ->
  trace (snd (__init__ repr targets emoji w))
  = (trace w
     ++ [GetMe;
         Log INFO ("Bot started: @" ++ User.username bot_info);
         Log INFO ("Watching for sticker IDs: " ++ repr targets);
         Log INFO ("Will react with: " ++ emoji)])%list.
Proof.
  intros Hme. rewrite init_run.
  destruct (get_me (client w)) as [[e|u] b]; cbn [fst] in Hme;
    [discriminate|].
  injection Hme as ->. reflexivity.
Qed.

Lemma constructor_logs_configuration_witness :
  trace (snd (__init__ Fake.repr TARGET_STICKER_IDS REACTION_EMOJI
                (Fake.boot Fake.quiet)))
  = [GetMe;
     Log INFO "Bot started: @CapyBot";
     Log INFO
       "Watching for sticker IDs: ['AgADZwADuRtZCw', 'AgADLXUAAkw0aEk', 'AgADtnYAAuLomUs']";
     Log INFO "Will react with: 👎"].
Proof.
  exact (constructor_logs_configuration (api := Fake.api) Fake.repr
           TARGET_STICKER_IDS REACTION_EMOJI (Fake.boot Fake.quiet)
           (User.Build "CapyBot") eq_refl).
Defined.

(** X13: when the receive loop ends without raising, [start] returns
    normally and writes nothing after it: only a failure or an interrupt
    of the loop is logged. *)
Theorem polling_end_is_silent
  {B : Type} {api : TeleBot B} (self : AutoReactBot) (fuel : nat)
  (w w1 : World B) :
  bot_polling (_setup_handlers self) 20 20 true true fuel
    (extend w start_banner) = (Return tt, w1) ->
  start self fuel w = (Return tt, w1).
Proof.
  intros Hpoll. rewrite start_run. unfold try_except. now rewrite Hpoll.
Qed.

Lemma polling_end_is_silent_witness :
  start configured 1 (Fake.boot Fake.quiet)
  = (Return tt,
     {| client := Fake.quiet;
        trace := (start_banner ++ [Polling 20 20 true true])%list |}).
Proof.
  apply (polling_end_is_silent (api := Fake.api) configured 1
           (Fake.boot Fake.quiet)).
  reflexivity.
Defined.

Lemma start_prefix {B : Type} {api : TeleBot B} (self : AutoReactBot)
      (fuel : nat) (w : World B) :
  exists rest,
    trace (snd (start self fuel w))
    = (trace w ++ start_banner ++ Polling 20 20 true true :: rest)%list.
Proof.
  rewrite start_run. unfold try_except, bot_polling, bind, emit.
  set (w3 := {| client := _; trace := _ |}).
  assert (H3 : trace w3
               = (trace w ++ start_banner ++ [Polling 20 20 true true])%list)
    by (unfold w3, extend; cbn [client trace]; now rewrite <- app_assoc).
  assert (Hloop : adds (fun _ => True) w3
                    (snd (polling_loop (_setup_handlers self) 20 fuel w3))).
  { apply polling_loop_lift.
    - apply adds_refl.
    - apply adds_trans.
    - intros m w0.
      destruct (notify_shape self m w0) as [[_ ->]|[_ (evs & Htr & _)]];
        [apply adds_refl|].
      exists (detected m :: evs). split; [exact Htr|].
      apply Forall_forall. trivial.
    - apply adds_client. }
  destruct Hloop as (evs & Htr & _).
  assert (Hshape : forall tr,
             (trace w3 ++ tr)%list
             = (trace w ++ start_banner ++ Polling 20 20 true true :: tr)%list).
  { intros tr. rewrite H3, <- !app_assoc. reflexivity. }
  destruct (polling_loop _ 20 fuel w3) as [[[]|e|] w4]; cbn [snd] in *.
  - exists evs. now rewrite Htr, Hshape.
  - destruct e as [|[msg|msg]]; cbn [find_clause isinstance];
      unfold logger_info, logger_error, bind, emit, raise; cbn [snd trace];
      eexists; rewrite Htr, <- app_assoc, Hshape; reflexivity.
  - exists evs. now rewrite Htr, Hshape.
Qed.

(** X14: every run of [main] starts the same way: the identity lookup,
    records only, the two records of [start], then the [polling] call.
    In particular no reaction or reply precedes polling. *)
Theorem startup_order
  {B : Type} {api : TeleBot B} (repr : list string -> string) (fuel : nat)
  (w : World B) :
  exists records rest,
    trace (snd (main repr fuel w))
    = (trace w ++ GetMe :: records ++ start_banner
       ++ Polling 20 20 true true :: rest)%list
    /\ Forall (fun ev => exists level msg, ev = Log level msg) records.
Proof.
  rewrite main_run.
  destruct (start_prefix configured fuel
              (snd (__init__ repr TARGET_STICKER_IDS REACTION_EMOJI w)))
    as (rest & ->).
  rewrite init_run.
  destruct (get_me (client w)) as [[e|u] b]; cbn [snd trace].
  - exists [Log ERROR ("Failed to get bot info: " ++ str (Exc e))], rest.
    split; [rewrite <- app_assoc; reflexivity|].
    repeat constructor; eauto.
  - exists [Log INFO ("Bot started: @" ++ User.username u);
            Log INFO ("Watching for sticker IDs: "
                      ++ repr TARGET_STICKER_IDS);
            Log INFO ("Will react with: " ++ REACTION_EMOJI)], rest.
    split; [rewrite <- app_assoc; reflexivity|].
    repeat constructor; eauto.
Qed.
